(** * Subreddit Stats: a shallow embedding of [subreddit_stats.py]

    The development follows the Python class [SubRedditStats]: the marker
    protocol ([re_marker], [_previous_max], [post_footer]), the retrying
    caller [_submit], the window scan of [fetch_recent_submissions], the
    grouping passes, the ranking and rendering methods and
    [publish_results].

    Conventions.
    - Python [float] timestamps are rationals ([Q]) holding the exact value of
      the float; rounding of float arithmetic, infinities and NaN are outside
      the model.  Python [int]s are [Z].
    - Text is [string], one [ascii] per character, and [len] is
      [String.length]; characters beyond this range (the Unicode digits and
      spaces that Python 3 also knows) are outside the model.
    - An exception is a value of [exn]; a method that may raise returns
      [result].
    - The remote service and the terminal are explicit inputs: a listing is
      a list, the answers of [reddit.submit] are a script of responses, the
      line read from stdin is a string.
    - What [_submit] and [publish_results] write, sleep and call is recorded
      as a list of [event]s.  The diagnostic lines of the other methods
      ([msg], which is silent at the default verbosity 0, and the notices
      printed before [sys.exit] and on a failed comment fetch) do not change
      the state and are not recorded. *)

From Stdlib Require Import ZArith QArith Lia Bool List.
From Stdlib Require Import Ascii String DecimalString DecimalZ.
From Stdlib Require Import Sorting.Sorted Sorting.Permutation.
Import ListNotations.

Local Open Scope string_scope.
Local Open Scope list_scope.
Local Open Scope Z_scope.

Infix "+++" := String.append (right associativity, at level 60).

(** ** Python primitives used by the program *)

Module Py.

(** [str.startswith]. *)
Definition startswith (s p : string) : bool := String.prefix p s.

(** [s.replace(c, by)] for a one-character pattern [c]. *)
Fixpoint replace (c : ascii) (by_ : string) (s : string) : string :=
  match s with
  | EmptyString => EmptyString
  | String a s' =>
      if Ascii.eqb a c then by_ +++ replace c by_ s'
      else String a (replace c by_ s')
  end.

(** [s.split(c)]: the fields between the occurrences of [c]. *)
Fixpoint split (c : ascii) (s : string) : list string :=
  match s with
  | EmptyString => [EmptyString]
  | String a s' =>
      if Ascii.eqb a c then EmptyString :: split c s'
      else match split c s' with
           | [] => [String a EmptyString]
           | f :: fs => String a f :: fs
           end
  end.

(** The characters removed by [str.strip()]. *)
Definition is_space (a : ascii) : bool :=
  let n := nat_of_ascii a in
  (Nat.eqb n 32 || (Nat.leb 9 n && Nat.leb n 13))%bool%nat.

Fixpoint lstrip (s : string) : string :=
  match s with
  | EmptyString => EmptyString
  | String a s' => if is_space a then lstrip s' else s
  end.

Fixpoint rstrip (s : string) : string :=
  match s with
  | EmptyString => EmptyString
  | String a s' =>
      match rstrip s' with
      | EmptyString => if is_space a then EmptyString else String a EmptyString
      | r => String a r
      end
  end.

Definition strip (s : string) : string := rstrip (lstrip s).

Definition lower_char (a : ascii) : ascii :=
  let n := nat_of_ascii a in
  if (Nat.leb 65 n && Nat.leb n 90)%bool then ascii_of_nat (n + 32) else a.

(** [str.lower()]. *)
Fixpoint lower (s : string) : string :=
  match s with
  | EmptyString => EmptyString
  | String a s' => String (lower_char a) (lower s')
  end.

(** ['%d' % n] for an [int]. *)
Definition fmt_d (n : Z) : string := NilZero.string_of_int (Z.to_int n).

(** [int(x)] for a [float]: truncation toward zero. *)
Definition trunc (x : Q) : Z := Z.quot (Qnum x) (Z.pos (Qden x)).

(** ['%d' % x] for a [float]: the integer part is printed. *)
Definition fmt_d_float (x : Q) : string := fmt_d (trunc x).

(** [float(s)] on a string of decimal digits (what [\d+] captures). *)
Definition float_of_digits (s : string) : option Q :=
  option_map (fun u => inject_Z (Z.of_uint u)) (NilZero.uint_of_string s).

(** [max(a, b)] on floats: the first argument wins a tie. *)
Definition max (a b : Q) : Q := if Qle_bool b a then a else b.

(** [min(a, b)] on ints. *)
Definition min (a b : Z) : Z := if b <? a then b else a.

(** [l[:k]]: a negative [k] counts from the end. *)
Definition slice_to {A} (k : Z) (l : list A) : list A :=
  if 0 <=? k then firstn (Z.to_nat k) l
  else firstn (List.length l - Z.to_nat (- k))%nat l.

(** [sum(f(x) for x in l)]. *)
Definition sum {A} (f : A -> Z) (l : list A) : Z :=
  fold_left (fun acc x => acc + f x) l 0.

(** [len(l)] as a Python [int]. *)
Definition len {A} (l : list A) : Z := Z.of_nat (List.length l).

(** Python compares tuples lexicographically. *)
Definition pair_ltb (a b : Z * Z) : bool :=
  ((fst a <? fst b) || ((fst a =? fst b) && (snd a <? snd b)))%bool.

(** [sorted(l, key=key)] and [sorted(l, key=key, reverse=True)].  Python's
    sort is stable, and [reverse=True] keeps elements with equal keys in
    their original order too; [ltb] is the strict order on keys. *)
Section Sorted.
Context {A K : Type} (ltb : K -> K -> bool) (key : A -> K).

(** [goes_after rev y x]: [x], which came before [y] in the input, must
    be placed behind [y]. *)
Definition goes_after (reverse : bool) (y x : A) : bool :=
  if reverse then ltb (key x) (key y) else ltb (key y) (key x).

Fixpoint insert (reverse : bool) (x : A) (l : list A) : list A :=
  match l with
  | [] => [x]
  | y :: l' =>
      if goes_after reverse y x then y :: insert reverse x l'
      else x :: l
  end.

Definition sorted (reverse : bool) (l : list A) : list A :=
  fold_right (insert reverse) [] l.
End Sorted.

End Py.

(** ** Exceptions *)

(** One entry of a PRAW [ExceptionList]. *)
Inductive api_error : Type :=
| ApiRateLimit (sleep_time : Q)
| ApiError (msg : string).

Inductive exn : Type :=
| RateLimitExceeded (sleep_time : Q)
| ExceptionList (errors : list api_error)
| ClientException (msg : string)
| ZeroDivisionError
| IndexError
| TypeError (msg : string)
| ValueError
| SystemExit (code : Z).

Inductive result (A : Type) : Type :=
| Ok (a : A)
| Raise (e : exn).
Arguments Ok {A} a.
Arguments Raise {A} e.

Definition bind {A B} (r : result A) (k : A -> result B) : result B :=
  match r with
  | Ok a => k a
  | Raise e => Raise e
  end.

Notation "x <- r ;; k" := (bind r (fun x => k))
  (at level 61, r at next level, right associativity).

(** ** Constants of the module *)

Definition DAYS_IN_SECONDS : Z := 60 * 60 * 24.
Definition MAX_BODY_SIZE : Z := 10000.

Definition nl : string := String (ascii_of_nat 10) EmptyString.
Definition backslash : string := String (ascii_of_nat 92) EmptyString.
Definition quote : string := String (ascii_of_nat 39) EmptyString.

Definition post_prefix : string := "Subreddit Stats:".

(** [post_header % s]. *)
Definition post_header (s : string) : string := "---" +++ nl +++ "###" +++ s +++ nl.

Definition marker_literal : string := "SRS Marker: ".

(** [post_footer % (prev, max_date)]; the marker is written with [%d]. *)
Definition post_footer (prev : string) (max_date : Q) : string :=
  ">Generated with [BBoe](/user/bboe)" +++ quote +++ "s [Subreddit Stats]"
  +++ "(https://github.com/bboe/subreddit_stats)  " +++ nl +++ prev
  +++ marker_literal +++ Py.fmt_d_float max_date.

(** ** The marker pattern [re_marker = 'SRS Marker: (\d+)'] *)

Definition is_digit (a : ascii) : bool :=
  let n := nat_of_ascii a in (Nat.leb 48 n && Nat.leb n 57)%bool.

(** The longest run of digits at the head of [s] (greedy [\d+]). *)
Fixpoint take_digits (s : string) : string :=
  match s with
  | EmptyString => EmptyString
  | String a s' => if is_digit a then String a (take_digits s') else EmptyString
  end.

(** [strip_prefix p s = Some r] when [s = p +++ r]. *)
Fixpoint strip_prefix (p s : string) : option string :=
  match p, s with
  | EmptyString, _ => Some s
  | String a p', String b s' =>
      if Ascii.eqb a b then strip_prefix p' s' else None
  | String _ _, EmptyString => None
  end.

(** One anchored match of the pattern at the head of [s]: the captured group. *)
Definition match_marker (s : string) : option string :=
  match strip_prefix marker_literal s with
  | Some r =>
      match take_digits r with
      | EmptyString => None
      | ds => Some ds
      end
  | None => None
  end.

(** [re_marker.findall]: leftmost, non-overlapping matches, left to right.
    [skip] counts the characters of the current match still to be passed. *)
Fixpoint findall_from (skip : nat) (s : string) : list string :=
  match s with
  | EmptyString => []
  | String _ s' =>
      match skip with
      | S k => findall_from k s'
      | O =>
          match match_marker s with
          | Some ds =>
              ds :: findall_from (String.length marker_literal + String.length ds - 1)%nat s'
          | None => findall_from 0 s'
          end
      end
  end.

Definition re_marker_findall (s : string) : list string := findall_from 0 s.

Fixpoint last_opt {A} (l : list A) : option A :=
  match l with
  | [] => None
  | [x] => Some x
  | _ :: l' => last_opt l'
  end.

(** ** Data model *)

Module Comment.
Record t : Type := mk {
  author : option string;
  ups : Z;
  downs : Z;
  permalink : string;
  submission_title : string   (* [comment.submission.title] *)
}.
End Comment.

Module Submission.
Record t : Type := mk {
  author : option string;
  created_utc : Q;
  ups : Z;
  downs : Z;
  score : Z;
  title : string;
  url : string;
  permalink : string;
  num_comments : Z;
  is_self : bool;
  selftext : option string;
  all_comments_flat : result (list Comment.t);
  orphaned : list (list Comment.t)   (* the values of [_orphaned] *)
}.
End Submission.

(** [str(x)] for an author or user that may be [None]. *)
Definition str_opt (a : option string) : string :=
  match a with
  | Some n => n
  | None => "None"
  end.

(** A [defaultdict(list)] keyed by author name, in insertion order. *)
Definition groups (A : Type) : Type := list (string * list A).

(** [d[k].append(x)]. *)
Fixpoint dict_append {A} (d : groups A) (k : string) (x : A) : groups A :=
  match d with
  | [] => [(k, [x])]
  | (k', xs) :: d' =>
      if String.eqb k' k then (k', xs ++ [x]) :: d'
      else (k', xs) :: dict_append d' k x
  end.

(** The fields of a [SubRedditStats] instance.  [user] is
    [self.reddit.user] and [subreddit] is [str(self.subreddit)]. *)
Record SubRedditStats : Type := mkSRS {
  user : option string;
  subreddit : string;
  submissions : list Submission.t;
  comments : list Comment.t;
  submitters : groups Submission.t;
  commenters : groups Comment.t;
  min_date : Q;
  max_date : Q;
  prev_srs : option string
}.

Definition set_min_date (v : Q) (self : SubRedditStats) : SubRedditStats :=
  mkSRS (user self) (subreddit self) (submissions self) (comments self)
        (submitters self) (commenters self) v (max_date self) (prev_srs self).

Definition set_max_date (v : Q) (self : SubRedditStats) : SubRedditStats :=
  mkSRS (user self) (subreddit self) (submissions self) (comments self)
        (submitters self) (commenters self) (min_date self) v (prev_srs self).

Definition set_prev_srs (v : option string) (self : SubRedditStats) : SubRedditStats :=
  mkSRS (user self) (subreddit self) (submissions self) (comments self)
        (submitters self) (commenters self) (min_date self) (max_date self) v.

Definition set_submissions (v : list Submission.t) (self : SubRedditStats) : SubRedditStats :=
  mkSRS (user self) (subreddit self) v (comments self)
        (submitters self) (commenters self) (min_date self) (max_date self) (prev_srs self).

Definition set_comments (v : list Comment.t) (self : SubRedditStats) : SubRedditStats :=
  mkSRS (user self) (subreddit self) (submissions self) v
        (submitters self) (commenters self) (min_date self) (max_date self) (prev_srs self).

Definition set_submitters (v : groups Submission.t) (self : SubRedditStats) : SubRedditStats :=
  mkSRS (user self) (subreddit self) (submissions self) (comments self)
        v (commenters self) (min_date self) (max_date self) (prev_srs self).

Definition set_commenters (v : groups Comment.t) (self : SubRedditStats) : SubRedditStats :=
  mkSRS (user self) (subreddit self) (submissions self) (comments self)
        (submitters self) v (min_date self) (max_date self) (prev_srs self).

(** [__init__]: [now] is [time.time()]. *)
Definition init (user : option string) (subreddit : string) (now : Q) : SubRedditStats :=
  mkSRS user subreddit [] [] [] [] 0%Q
        (now - inject_Z (DAYS_IN_SECONDS * 3))%Q None.

(** ** Static helpers *)

(** [_previous_max]: the last marker of the text as a float; a missing
    marker (or a missing text) prints a message and leaves with
    [sys.exit(1)]. *)
Definition _previous_max (submission : Submission.t) : result Q :=
  match Submission.selftext submission with
  | None => Raise (SystemExit 1)
  | Some text =>
      match last_opt (re_marker_findall text) with
      | None => Raise (SystemExit 1)
      | Some val =>
          match Py.float_of_digits val with
          | Some x => Ok x
          | None => Raise ValueError
          end
      end
  end.

(** [tokens[i]]. *)
Definition index {A} (l : list A) (i : nat) : result A :=
  match nth_error l i with
  | Some x => Ok x
  | None => Raise IndexError
  end.

Definition _permalink (permalink : string) : result string :=
  let tokens := Py.split "/" permalink in
  t8 <- index tokens 8 ;;
  if String.eqb t8 "" then
    t6 <- index tokens 6 ;;
    Ok ("/comments/" +++ t6 +++ "/_/")
  else
    t6 <- index tokens 6 ;;
    Ok ("/comments/" +++ t6 +++ "/_/" +++ t8 +++ "?context=1").

Definition _user (user : option string) : string :=
  match user with
  | None => "_deleted_"
  | Some u =>
      "[" +++ Py.replace "_" (backslash +++ "_") u +++ "](/user/" +++ u +++ ")"
  end.

(** ** Events and the retrying caller *)

Inductive event : Type :=
| Stdout (s : string)            (* [sys.stdout.write(s)] *)
| Flush                          (* [sys.stdout.flush()] *)
| Sleep (t : Q)                  (* [time.sleep(t)] *)
| Call (subreddit title text : string).   (* one call of [reddit.submit] *)

(** [print(s)]. *)
Definition print (s : string) : event := Stdout (s +++ nl).

(** What one call of the wrapped function does. *)
Inductive response : Type :=
| Returns (permalink : string)
| Raises (e : exn).

Definition tab : string := String (ascii_of_nat 9) EmptyString.

(** The local [sleep] of [_submit]. *)
Definition sleep (sleep_time : Q) : list event :=
  [print (tab +++ "Sleeping for " +++ Py.fmt_d_float sleep_time +++ " seconds");
   Sleep sleep_time].

(** The [for ... else] over [exception_list.errors]: the first rate-limit
    entry, if any. *)
Fixpoint first_rate_limit (errors : list api_error) : option Q :=
  match errors with
  | [] => None
  | ApiRateLimit t :: _ => Some t
  | ApiError _ :: errors' => first_rate_limit errors'
  end.

(** [_submit(func, *args)]: [call] is the call being made and [script] what
    the successive calls answer.  The loop has no bound of its own: it ends
    when a call returns or raises something that is not a rate limit, and
    the result is [None] when the script is used up before that.  The third
    component is the part of the script not consumed. *)
Fixpoint _submit (call : event) (script : list response)
  : list event * option (result string) * list response :=
  match script with
  | [] => ([], None, [])
  | r :: script' =>
      match r with
      | Returns v => ([call], Some (Ok v), script')
      | Raises (RateLimitExceeded t) =>
          let '(tr, out, rest) := _submit call script' in
          (call :: sleep t ++ tr, out, rest)
      | Raises (ExceptionList errors) =>
          match first_rate_limit errors with
          | Some t =>
              let '(tr, out, rest) := _submit call script' in
              (call :: sleep t ++ tr, out, rest)
          | None => ([call], Some (Raise (ExceptionList errors)), script')
          end
      | Raises e => ([call], Some (Raise e), script')
      end
  end.

(** ** Window resolution and collection *)

Definition Qlt_bool (a b : Q) : bool := negb (Qle_bool b a).

(** [prev_stat]: [fetched] is what [reddit.get_submission(prev_url)] returns. *)
Definition prev_stat (self : SubRedditStats) (prev_url : string)
    (fetched : Submission.t) : result SubRedditStats :=
  m <- _previous_max fetched ;;
  Ok (set_prev_srs (Some prev_url) (set_min_date m self)).

(** The first statement of [fetch_recent_submissions]: a non-zero
    [max_duration] replaces [min_date]. *)
Definition apply_max_duration (max_duration : Z) (self : SubRedditStats)
  : SubRedditStats :=
  if max_duration =? 0 then self
  else set_min_date
         (max_date self - inject_Z (DAYS_IN_SECONDS * max_duration))%Q self.

(** The test that recognises an earlier report of this account. *)
Definition is_previous_report (since_last : bool) (self : SubRedditStats)
    (submission : Submission.t) : bool :=
  (since_last
   && String.eqb (str_opt (Submission.author submission)) (str_opt (user self))
   && Py.startswith (Submission.title submission) post_prefix)%bool.

(** The [for] loop over [get_new_by_date].  The result carries, besides the
    instance, the submission on which the loop left with [break] (if it
    did) and the part of the listing that was never drawn from the
    generator. *)
Fixpoint scan_new (exclude_self since_last : bool)
    (listing : list Submission.t) (self : SubRedditStats)
  : result (SubRedditStats * option Submission.t * list Submission.t) :=
  match listing with
  | [] => Ok (self, None, [])
  | submission :: rest =>
      if Qlt_bool (max_date self) (Submission.created_utc submission) then
        scan_new exclude_self since_last rest self
      else if Qle_bool (Submission.created_utc submission) (min_date self) then
        Ok (self, Some submission, rest)
      else if is_previous_report since_last self submission then
        match prev_srs self with
        | None =>
            m <- _previous_max submission ;;
            scan_new exclude_self since_last rest
              (set_prev_srs (Some (Submission.permalink submission))
                 (set_min_date (Py.max (min_date self) m) self))
        | Some _ => scan_new exclude_self since_last rest self
        end
      else if (exclude_self && Submission.is_self submission)%bool then
        scan_new exclude_self since_last rest self
      else
        scan_new exclude_self since_last rest
          (set_submissions (submissions self ++ [submission]) self)
  end.

(** The common tail of both fetch methods: nothing found, or sort by
    creation time and take the real bounds from the first and last. *)
Definition update_real_dates (self : SubRedditStats) : bool * SubRedditStats :=
  match submissions self with
  | [] => (false, self)
  | _ :: _ =>
      let sorted := Py.sorted Qlt_bool Submission.created_utc false (submissions self) in
      let self := set_submissions sorted self in
      match sorted, last_opt sorted with
      | first :: _, Some final =>
          (true, set_max_date (Submission.created_utc final)
                   (set_min_date (Submission.created_utc first) self))
      | _, _ => (true, self)
      end
  end.

Definition fetch_recent_submissions (self : SubRedditStats) (max_duration : Z)
    (exclude_self since_last : bool) (listing : list Submission.t)
  : result (bool * SubRedditStats) :=
  let self := apply_max_duration max_duration self in
  r <- scan_new exclude_self since_last listing self ;;
  Ok (update_real_dates (fst (fst r))).

Definition valid_top (top : string) : bool :=
  existsb (String.eqb top) ["day"; "week"; "month"; "year"; "all"].

Definition fetch_top_submissions (self : SubRedditStats) (top : string)
    (exclude_self : bool) (listing : list Submission.t)
  : result (bool * SubRedditStats) :=
  if negb (valid_top top) then Raise (TypeError top)
  else
    let kept :=
      filter (fun s => negb (exclude_self && Submission.is_self s)) listing in
    Ok (update_real_dates (set_submissions (submissions self ++ kept) self)).

(** ** Grouping by author *)

Definition process_submitters (self : SubRedditStats) : SubRedditStats :=
  set_submitters
    (fold_left
       (fun d submission =>
          match Submission.author submission with
          | Some a => dict_append d a submission
          | None => d
          end)
       (submissions self) (submitters self))
    self.

(** [except Exception] does not catch [SystemExit]. *)
Definition is_Exception (e : exn) : bool :=
  match e with
  | SystemExit _ => false
  | _ => true
  end.

(** The first loop of [process_commenters]. *)
Fixpoint collect_comments (subs : list Submission.t) (acc : list Comment.t)
  : result (list Comment.t) :=
  match subs with
  | [] => Ok acc
  | submission :: subs' =>
      if Submission.num_comments submission =? 0 then collect_comments subs' acc
      else
        let orphans := List.concat (Submission.orphaned submission) in
        match Submission.all_comments_flat submission with
        | Ok cs => collect_comments subs' (acc ++ cs ++ orphans)
        | Raise e =>
            if is_Exception e then collect_comments subs' (acc ++ orphans)
            else Raise e
        end
  end.

Definition process_commenters (self : SubRedditStats) : result SubRedditStats :=
  cs <- collect_comments (submissions self) (comments self) ;;
  Ok (set_commenters
        (fold_left
           (fun d comment =>
              match Comment.author comment with
              | Some a => dict_append d a comment
              | None => d
              end)
           cs (commenters self))
        (set_comments cs self)).

(** ** Rankings *)

(** The sort key of an author group: [(sum(score(y) for y in x[1]), len(x[1]))]. *)
Definition author_key {A} (score : A -> Z) (x : string * list A) : Z * Z :=
  (Py.sum score (snd x), Py.len (snd x)).

(** [sorted(six.iteritems(d), reverse=True, key=...)[:num]], the expression
    shared by [top_submitters] and [top_commenters]. *)
Definition top_authors {A} (score : A -> Z) (d : groups A) (num : Z)
  : groups A :=
  Py.slice_to num (Py.sorted Py.pair_ltb (author_key score) true d).

(** [sorted(items, reverse=True, key=score)[:num]]. *)
Definition top_items {A} (score : A -> Z) (items : list A) (num : Z) : list A :=
  Py.slice_to num (Py.sorted Z.ltb score true items).

(** The [score] lambda of [top_commenters] and [top_comments]. *)
Definition comment_score (x : Comment.t) : Z := Comment.ups x - Comment.downs x.

(** ** Report sections *)

Inductive py_version : Type := Py2 | Py3.

Section Report.

(** [version] selects the meaning of [/] on ints; [timef] is the local
    function of [publish_results] (it depends on the time zone of the
    machine); [str_exn] is [str(error)]. *)
Variable version : py_version.
Variable timef : Q -> string.
Variable str_exn : exn -> string.

(** [a / b] on ints: floor division in Python 2, true division in Python 3. *)
Definition int_div (a b : Z) : result Q :=
  if b =? 0 then Raise ZeroDivisionError
  else Ok match version with
          | Py2 => inject_Z (a / b)
          | Py3 => (inject_Z a / inject_Z b)%Q
          end.

(** ['__%s__|%d|%s|%d|%s\n' % quad]. *)
Definition stats_row (quad : string * Z * string * Z * string) : string :=
  let '(name, a, pa, b, pb) := quad in
  "__" +++ name +++ "__|" +++ Py.fmt_d a +++ "|" +++ pa +++ "|"
  +++ Py.fmt_d b +++ "|" +++ pb +++ nl.

Definition basic_stats (self : SubRedditStats) : result string :=
  let sub_ups := Py.sum Submission.ups (submissions self) in
  let sub_downs := Py.sum Submission.downs (submissions self) in
  let comm_ups := Py.sum Comment.ups (comments self) in
  let comm_downs := Py.sum Comment.downs (comments self) in
  sub_up_perc <- int_div (sub_ups * 100) (sub_ups + sub_downs) ;;
  comm_up_perc <- int_div (comm_ups * 100) (comm_ups + comm_downs) ;;
  let values :=
    [("Total", Py.len (submissions self), "", Py.len (comments self), "");
     ("Unique Redditors", Py.len (submitters self), "",
      Py.len (commenters self), "");
     ("Upvotes", sub_ups, Py.fmt_d_float sub_up_perc +++ "%",
      comm_ups, Py.fmt_d_float comm_up_perc +++ "%");
     ("Downvotes", sub_downs, Py.fmt_d_float (100 - sub_up_perc)%Q +++ "%",
      comm_downs, Py.fmt_d_float (100 - comm_up_perc)%Q +++ "%")] in
  let retval :=
    fold_left (fun acc quad => acc +++ stats_row quad) values
      ("||Submissions|%|Comments|%|" +++ nl +++ ":-:|--:|--:|--:|--:" +++ nl) in
  Ok (retval +++ nl).

(** [retval += f(x)] for each [x], stopping at the first exception. *)
Fixpoint render_each {A} (f : A -> result string) (l : list A)
    (retval : string) : result string :=
  match l with
  | [] => Ok retval
  | x :: l' => s <- f x ;; render_each f l' (retval +++ s)
  end.

(** [title.replace('\n', ' ').strip()]. *)
Definition clean_title (title : string) : string :=
  Py.strip (Py.replace (ascii_of_nat 10) " " title).

(** One nested line of [top_submitters]. *)
Definition submitter_item (sub : Submission.t) : result string :=
  let title := clean_title (Submission.title sub) in
  let head :=
    if negb (String.eqb (Submission.permalink sub) (Submission.url sub))
    then "  0. [" +++ title +++ "](" +++ Submission.url sub +++ ")"
    else "  0. " +++ title in
  link <- _permalink (Submission.permalink sub) ;;
  Ok (head +++ " (" +++ Py.fmt_d (Submission.score sub) +++ " pts, ["
      +++ Py.fmt_d (Submission.num_comments sub) +++ " comments](" +++ link
      +++ "))" +++ nl).

(** The body of the outer loop of [top_submitters] for one author. *)
Definition submitter_block (num_submissions : Z)
    (entry : string * list Submission.t) : result string :=
  let '(author, subs) := entry in
  let head :=
    "0. " +++ Py.fmt_d (Py.sum Submission.score subs) +++ " pts, "
    +++ Py.fmt_d (Py.len subs) +++ " submissions: " +++ _user (Some author)
    +++ nl in
  items <- render_each submitter_item
             (top_items Submission.score subs num_submissions) head ;;
  Ok (items +++ nl).

Definition top_submitters (self : SubRedditStats) (num num_submissions : Z)
  : result string :=
  let num := Py.min num (Py.len (submitters self)) in
  if num <=? 0 then Ok ""
  else
    render_each (submitter_block num_submissions)
      (top_authors Submission.score (submitters self) num)
      (post_header ("Top Submitters" +++ quote +++ " Top Submissions")).

Definition commenter_line (entry : string * list Comment.t) : string :=
  let '(author, cs) := entry in
  "0. " +++ _user (Some author) +++ " (" +++ Py.fmt_d (Py.sum comment_score cs)
  +++ " pts, " +++ Py.fmt_d (Py.len cs) +++ " comments)" +++ nl.

Definition top_commenters (self : SubRedditStats) (num : Z) : string :=
  let num := Py.min num (Py.len (commenters self)) in
  if num <=? 0 then ""
  else
    fold_left (fun retval entry => retval +++ commenter_line entry)
      (top_authors comment_score (commenters self) num)
      (post_header "Top Commenters")
    +++ nl.

Definition submission_line (sub : Submission.t) : result string :=
  let title := clean_title (Submission.title sub) in
  let head :=
    if negb (String.eqb (Submission.permalink sub) (Submission.url sub))
    then "0. [" +++ title +++ "](" +++ Submission.url sub +++ ")"
    else "0. " +++ title in
  link <- _permalink (Submission.permalink sub) ;;
  Ok (head +++ " by " +++ _user (Submission.author sub) +++ " ("
      +++ Py.fmt_d (Submission.score sub) +++ " pts, ["
      +++ Py.fmt_d (Submission.num_comments sub) +++ " comments](" +++ link
      +++ "))" +++ nl).

Definition top_submissions (self : SubRedditStats) (num : Z) : result string :=
  let num := Py.min num (Py.len (submissions self)) in
  if num <=? 0 then Ok ""
  else
    retval <- render_each submission_line
                (top_items Submission.score (submissions self) num)
                (post_header "Top Submissions") ;;
    Ok (retval +++ nl).

Definition comment_line (comment : Comment.t) : result string :=
  let title := clean_title (Comment.submission_title comment) in
  link <- _permalink (Comment.permalink comment) ;;
  Ok ("0. " +++ Py.fmt_d (comment_score comment) +++ " pts: "
      +++ _user (Comment.author comment) +++ quote +++ "s [comment]("
      +++ link +++ ") in " +++ title +++ nl).

Definition top_comments (self : SubRedditStats) (num : Z) : result string :=
  let num := Py.min num (Py.len (comments self)) in
  if num <=? 0 then Ok ""
  else
    retval <- render_each comment_line
                (top_items comment_score (comments self) num)
                (post_header "Top Comments") ;;
    Ok (retval +++ nl).

(** ** Assembling and publishing *)

(** The state of the shrink loop: the local variables [body] and
    [num_submissions], and (for the record) the values of
    [num_submissions] that [top_submitters] was called with so far. *)
Record shrink_state : Type := mkShrink {
  body : string;
  num_submissions : Z;
  rendered : list Z
}.

(** The loop condition
    [body == '' or len(body) > MAX_BODY_SIZE and num_submissions > 2]. *)
Definition shrink_cond (st : shrink_state) : bool :=
  (String.eqb (body st) ""
   || ((MAX_BODY_SIZE <? Z.of_nat (String.length (body st)))
       && (2 <? num_submissions st)))%bool.

(** The [while] loop of [publish_results].  [render k] is
    [self.top_submitters(submitters, k)] and [assemble] puts the sections
    together.  [fuel] bounds the number of tests of the condition; the
    result is [None] when it does not suffice. *)
Fixpoint shrink_loop (fuel : nat) (render : Z -> result string)
    (assemble : string -> string) (st : shrink_state)
  : option (result shrink_state) :=
  match fuel with
  | O => None
  | S fuel' =>
      if shrink_cond st then
        match render (num_submissions st) with
        | Ok t_submitters =>
            shrink_loop fuel' render assemble
              (mkShrink (assemble t_submitters) (num_submissions st - 1)
                        (rendered st ++ [num_submissions st]))
        | Raise e => Some (Raise e)
        end
      else Some (Ok st)
  end.

Definition truthy (s : option string) : bool :=
  match s with
  | Some EmptyString | None => false
  | Some _ => true
  end.

(** The sections that are rendered once, and the title. *)
Record fixed_parts : Type := mkFixed {
  title : string;
  basic : string;
  t_commenters : string;
  t_submissions : string;
  t_comments : string;
  footer : string
}.

Definition render_fixed (self : SubRedditStats)
    (commenters submissions comments : Z) (top : option string)
  : result fixed_parts :=
  let title :=
    post_prefix +++ " " +++ subreddit self +++ " "
    +++ (if truthy top then "top " else "") +++ "submissions from "
    +++ timef (min_date self) +++ " to " +++ timef (max_date self) in
  prev <- (match prev_srs self with
           | Some p =>
               if String.eqb p "" then Ok ""
               else
                 link <- _permalink p ;;
                 Ok ("[Previous Stat](" +++ link +++ ")  " +++ nl)
           | None => Ok ""
           end) ;;
  basic <- basic_stats self ;;
  let t_commenters := top_commenters self commenters in
  t_submissions <- top_submissions self submissions ;;
  t_comments <- top_comments self comments ;;
  let footer := post_footer prev (max_date self) in
  Ok (mkFixed title basic t_commenters t_submissions t_comments footer).

(** [basic + t_submitters + t_commenters + t_submissions + t_comments + footer]. *)
Definition assemble_body (parts : fixed_parts) (t_submitters : string) : string :=
  basic parts +++ t_submitters +++ t_commenters parts +++ t_submissions parts
  +++ t_comments parts +++ footer parts.

(** Everything up to and including the shrink loop. *)
Definition assemble_report (fuel : nat) (self : SubRedditStats)
    (submitters commenters submissions comments : Z) (top : option string)
  : option (result (fixed_parts * shrink_state)) :=
  match render_fixed self commenters submissions comments top with
  | Raise e => Some (Raise e)
  | Ok parts =>
      match shrink_loop fuel (top_submitters self submitters)
              (assemble_body parts) (mkShrink "" 10 []) with
      | None => None
      | Some (Raise e) => Some (Raise e)
      | Some (Ok st) => Some (Ok (parts, st))
      end
  end.

Definition oversize (body : string) : bool :=
  MAX_BODY_SIZE <? Z.of_nat (String.length body).

Definition confirmed (line : string) : bool :=
  existsb (String.eqb (Py.lower (Py.strip line))) ["y"; "yes"].

(** The part of [publish_results] after the shrink loop.  [line] is what
    [sys.stdin.readline()] returns and [script] what the calls of
    [reddit.submit] answer.  The result is the list of events and how the
    method ends ([None]: the script ran out inside [_submit]). *)
Definition publish_body (self : SubRedditStats) (subreddit : string)
    (debug : bool) (title body : string) (line : string)
    (script : list response)
  : list event * option (result unit) :=
  let too_big :=
    if oversize body
    then [print "The resulting message is too big. Not submitting."]
    else [] in
  let debug := (oversize body || debug)%bool in
  let display := [print title; print body] in
  if negb debug then
    let prompt :=
      [Stdout ("You are about to submit to subreddit " +++ subreddit
               +++ " as " +++ str_opt (user self) +++ "." +++ nl
               +++ "Are you sure? yes/[no]: ");
       Flush] in
    if negb (confirmed line) then
      (too_big ++ prompt ++ [print "Submission aborted"] ++ display,
       Some (Ok tt))
    else
      let '(tr, out, _) := _submit (Call subreddit title body) script in
      match out with
      | None => (too_big ++ prompt ++ tr, None)
      | Some (Ok permalink) =>
          (too_big ++ prompt ++ tr ++ [print permalink], Some (Ok tt))
      | Some (Raise error) =>
          if is_Exception error then
            (too_big ++ prompt ++ tr
             ++ [print ("The submission failed:" +++ str_exn error)]
             ++ display,
             Some (Ok tt))
          else (too_big ++ prompt ++ tr, Some (Raise error))
      end
  else (too_big ++ display, Some (Ok tt)).

Definition publish_results (fuel : nat) (self : SubRedditStats)
    (subreddit : string) (submitters commenters submissions comments : Z)
    (top : option string) (debug : bool) (line : string)
    (script : list response)
  : list event * option (result unit) :=
  match assemble_report fuel self submitters commenters submissions comments top with
  | None => ([], None)
  | Some (Raise e) => ([], Some (Raise e))
  | Some (Ok (parts, st)) =>
      publish_body self subreddit debug (title parts) (body st) line script
  end.

End Report.

(** The window-mode path of [main]: [--prev] first, then the scan. *)
Definition main_fetch (self : SubRedditStats)
    (prev : option (string * Submission.t)) (days : Z) (no_self : bool)
    (listing : list Submission.t) : result (bool * SubRedditStats) :=
  self <- (match prev with
           | Some (prev_url, fetched) =>
               if String.eqb prev_url "" then Ok self
               else prev_stat self prev_url fetched
           | None => Ok self
           end) ;;
  fetch_recent_submissions self days no_self true listing.

(** ** The entry point *)

(** The parsed command line, as far as [main] reads it ([--after] only
    changes which listing the service returns, [--verbose] only what [msg]
    writes). *)
Module Options.
Record t : Type := mk {
  submitters : Z;
  commenters : Z;
  days : Z;
  debug : bool;
  submission_reddit : option string;
  top : option string;
  no_self : bool;
  prev : option string
}.
End Options.

(** What the outside world supplies to one run: the clock, the account
    logged in, the submission behind [--prev], the listings of
    [get_new_by_date] and [get_top], the line typed at the prompt and the
    answers of [reddit.submit]. *)
Record world : Type := mkWorld {
  now : Q;
  account : option string;
  prev_submission : Submission.t;
  new_listing : list Submission.t;
  top_listing : list Submission.t;
  stdin_line : string;
  submit_script : list response
}.

(** [main] after the parsing of the options; [subreddit] is [args[0]].
    The result is what the run writes and what [main] returns ([Some 1], or
    [None] for Python's [None]). *)
Definition main (version : py_version) (timef : Q -> string)
    (str_exn : exn -> string) (fuel : nat) (options : Options.t)
    (subreddit : string) (w : world)
  : list event * option (result (option Z)) :=
  let submission_reddit :=
    match Options.submission_reddit options with
    | Some r => if String.eqb r "" then subreddit else r
    | None => subreddit
    end in
  let srs := init (account w) subreddit (now w) in
  match (match Options.prev options with
         | Some url =>
             if String.eqb url "" then Ok srs
             else prev_stat srs url (prev_submission w)
         | None => Ok srs
         end) with
  | Raise e => ([], Some (Raise e))
  | Ok srs =>
      match (match Options.top options with
             | Some t =>
                 if String.eqb t ""
                 then fetch_recent_submissions srs (Options.days options)
                        (Options.no_self options) true (new_listing w)
                 else fetch_top_submissions srs t (Options.no_self options)
                        (top_listing w)
             | None =>
                 fetch_recent_submissions srs (Options.days options)
                   (Options.no_self options) true (new_listing w)
             end) with
      | Raise e => ([], Some (Raise e))
      | Ok (found, srs) =>
          if negb found
          then ([print "No submissions were found."], Some (Ok (Some 1)))
          else
            let srs := process_submitters srs in
            match (if 0 <? Options.commenters options
                   then process_commenters srs else Ok srs) with
            | Raise e => ([], Some (Raise e))
            | Ok srs =>
                let '(tr, out) :=
                  publish_results version timef str_exn fuel srs
                    submission_reddit (Options.submitters options)
                    (Options.commenters options) 5 5 (Options.top options)
                    (Options.debug options) (stdin_line w) (submit_script w) in
                (tr, match out with
                     | Some (Ok _) => Some (Ok None)
                     | Some (Raise e) => Some (Raise e)
                     | None => None
                     end)
            end
      end
  end.

(** * Vocabulary of the statements *)

(** ** Predicates *)

(** [hi, hi-1, ..., lo+1]. *)
Definition countdown (hi lo : Z) : list Z :=
  map (fun i => hi - Z.of_nat i) (seq 0 (Z.to_nat (hi - lo))).

(** What holds of the loop variables once the body was rendered at least
    once: the counter is one below the value last rendered, every value
    from 10 down was rendered in turn, and all renderings but the last
    were over the budget. *)
Definition shrink_inv (render : Z -> result string)
    (assemble : string -> string) (st : shrink_state) : Prop :=
  2 <= num_submissions st <= 9
  /\ rendered st = countdown 10 (num_submissions st)
  /\ (exists t, render (num_submissions st + 1) = Ok t /\ body st = assemble t)
  /\ (forall k, num_submissions st + 1 < k <= 10 ->
                exists t, render k = Ok t /\ oversize (assemble t) = true).

Definition shrink_start : shrink_state := mkShrink "" 10 [].

(** [x] may stand before [y] in a descending list: the key of [y] is not
    above the key of [x]. *)
Definition desc {A K : Type} (ltb : K -> K -> bool) (key : A -> K)
    (x y : A) : Prop :=
  ltb (key x) (key y) = false.

(** [x] is ranked at or above [y]: a larger total score, or the same total
    and at least as many items. *)
Definition outranks {A} (score : A -> Z) (x y : string * list A) : Prop :=
  Py.sum score (snd y) < Py.sum score (snd x)
  \/ (Py.sum score (snd y) = Py.sum score (snd x)
      /\ Py.len (snd y) <= Py.len (snd x)).



Definition is_call (ev : event) : bool :=
  match ev with
  | Call _ _ _ => true
  | _ => false
  end.

(** The length of a rendering, 0 when it raised. *)
Definition rendering_length (r : result string) : Z :=
  match r with
  | Ok t => Z.of_nat (String.length t)
  | Raise _ => 0
  end.

Abbreviation created := Submission.created_utc (only parsing).

(** ** Sample data *)

Definition sample_permalink (id : string) : string :=
  "http://www.reddit.com/r/test/comments/" +++ id +++ "/title/".

Definition sample_post (author : option string) (created : Q) (score : Z)
    (title : string) : Submission.t :=
  Submission.mk author created score 0 score title
    "http://example.com/" (sample_permalink "abc") 0 false None (Ok []) [].

Definition sample_comment (author : option string) (ups downs : Z) : Comment.t :=
  Comment.mk author ups downs (sample_permalink "abc" +++ "c1") "A title".

Fixpoint repeat_char (a : ascii) (n : nat) : string :=
  match n with
  | O => EmptyString
  | S n' => String a (repeat_char a n')
  end.

(** An instance as [main] leaves it before [publish_results]: the given
    submissions and comments, grouped by author. *)
Definition sample_stats (subs : list Submission.t) (cs : list Comment.t)
    (high : Q) : SubRedditStats :=
  let self := mkSRS (Some "statsbot") "test" subs [] [] [] 0%Q high None in
  let self := process_submitters self in
  let self := set_comments cs self in
  set_commenters
    (fold_left
       (fun d c => match Comment.author c with
                   | Some a => dict_append d a c
                   | None => d
                   end) cs []) self.

(** Submitters with the given scores, one post per score. *)
Definition sample_group (name : string) (scores : list Z)
  : string * list Submission.t :=
  (name, map (fun s => sample_post (Some name) 0 s "t") scores).

Definition group_A := sample_group "A" [50; 30; 20].

Definition group_B := sample_group "B" [20; 20; 20; 20; 20].

Definition group_C := sample_group "C" [9; 9; 9; 9; 9; 9; 9; 9; 9; 9].

(** A post whose vote difference is high but whose [score] field is low. *)
Definition post_low_score : Submission.t :=
  Submission.mk (Some "a") 0 10 0 1 "p1" "u" (sample_permalink "p1") 0 false
    None (Ok []) [].

Definition post_high_score : Submission.t :=
  Submission.mk (Some "b") 0 1 0 5 "p2" "u" (sample_permalink "p2") 0 false
    None (Ok []) [].

Definition sample_timef (x : Q) : string := Py.fmt_d_float x.

Definition sample_str_exn (e : exn) : string := "error".


(** The same with a title of 10001 characters: no rendering fits. *)
Definition big_stats : SubRedditStats :=
  sample_stats
    [sample_post (Some "alice") 10 5 (repeat_char "x" (Z.to_nat 10001));
     sample_post (Some "alice") 20 4 "second";
     sample_post (Some "alice") 30 3 "third"]
    [sample_comment (Some "carol") 3 1] 30.


Definition report_of (self : SubRedditStats) : fixed_parts * shrink_state :=
  match assemble_report Py3 sample_timef 9 self 5 10 5 5 None with
  | Some (Ok r) => r
  | _ => (mkFixed "" "" "" "" "" "", mkShrink "" 0 [])
  end.

Definition report_ok (self : SubRedditStats) : bool :=
  match assemble_report Py3 sample_timef 9 self 5 10 5 5 None with
  | Some (Ok _) => true
  | _ => false
  end.

(** The text of a report as a later run fetches it. *)
Definition as_previous (text : string) : Submission.t :=
  Submission.mk (Some "statsbot") 0 1 0 1 "Subreddit Stats: test" "u"
    (sample_permalink "prev") 0 true (Some text) (Ok []) [].

(** One post with a vote and no comment at all, as after a run with
    [--commenters 0], which skips [process_commenters]. *)
Definition no_comment_stats : SubRedditStats :=
  sample_stats [sample_post (Some "alice") 10 1 "first"] [] 10.

(** A previous report whose marker is later than the bound that one day
    gives, and a listing with one post between the two. *)
Definition marked_report : Submission.t := as_previous "SRS Marker: 9950000".

Definition between_post : Submission.t :=
  sample_post (Some "alice") (inject_Z 9940000) 5 "between".

Definition fresh_stats : SubRedditStats :=
  init (Some "statsbot") "test" (inject_Z 10259200).

(** The instance after [prev_stat] on [marked_report], and what the scan of
    [between_post] with a duration of one day returns. *)
Definition marked_stats : SubRedditStats :=
  set_prev_srs (Some "http://prev")
    (set_min_date (inject_Z 9950000) fresh_stats).

Definition marked_scan
  : SubRedditStats * option Submission.t * list Submission.t :=
  (set_submissions [between_post] (apply_max_duration 1 marked_stats), None, []).

(** The listing of the example: newest first, one post inside the grace
    period, two inside the window, three at or below the low bound. *)
Definition post_at (t : Z) : Submission.t :=
  sample_post (Some "alice") (inject_Z t) 1 "post".

Definition window_listing : list Submission.t :=
  [post_at 40; post_at 30; post_at 20; post_at 10; post_at 5; post_at 3].

Definition window_stats : SubRedditStats :=
  mkSRS (Some "statsbot") "test" [] [] [] [] (inject_Z 15) (inject_Z 35) None.

Definition window_result : SubRedditStats :=
  set_max_date (inject_Z 30)
    (set_min_date (inject_Z 20)
       (set_submissions [post_at 20; post_at 30] window_stats)).

(** ** Vocabulary and samples of the further properties *)

(** [sep.join(l)]. *)
Fixpoint join (sep : string) (l : list string) : string :=
  match l with
  | [] => ""
  | [x] => x
  | x :: l' => x +++ sep +++ join sep l'
  end.

(** The number of occurrences of [c] in [s]. *)
Fixpoint count_char (c : ascii) (s : string) : nat :=
  match s with
  | EmptyString => O
  | String a s' => if Ascii.eqb a c then S (count_char c s') else count_char c s'
  end.

(** The locations PRAW gives to a submission and to one of its comments. *)
Definition submission_location (host sub id title : string) : string :=
  join "/" ["http:"; ""; host; "r"; sub; "comments"; id; title; ""].

Definition comment_location (host sub id title cid : string) : string :=
  join "/" ["http:"; ""; host; "r"; sub; "comments"; id; title; cid].

(** [d.get(k)]: the list stored under [k], if any. *)
Fixpoint dict_get {A} (d : groups A) (k : string) : option (list A) :=
  match d with
  | [] => None
  | (k', xs) :: d' => if String.eqb k' k then Some xs else dict_get d' k
  end.

(** The items of [l] whose author is [a], in the order of [l]. *)
Definition by_author {A} (author : A -> option string) (a : string)
    (l : list A) : list A :=
  filter (fun x => match author x with
                   | Some b => String.eqb b a
                   | None => false
                   end) l.

(** The loop shared by [process_submitters] and [process_commenters]. *)
Definition group_all {A} (author : A -> option string) (l : list A)
    (d : groups A) : groups A :=
  fold_left (fun d x => match author x with
                        | Some a => dict_append d a x
                        | None => d
                        end) l d.

(** What one submission adds to [self.comments]. *)
Definition fetched_comments (submission : Submission.t) : list Comment.t :=
  if Submission.num_comments submission =? 0 then []
  else match Submission.all_comments_flat submission with
       | Ok cs => cs
       | Raise _ => []
       end ++ List.concat (Submission.orphaned submission).

(** A comment fetch that fails does so with an [Exception]. *)
Definition fetch_tolerated (submission : Submission.t) : Prop :=
  match Submission.all_comments_flat submission with
  | Raise (SystemExit _) => Submission.num_comments submission = 0
  | _ => True
  end.
(** The mapping built from an empty one, after the items [l]: distinct
    keys, and under each author exactly that author's items. *)
Definition grouped {A} (author : A -> option string) (l : list A)
    (d : groups A) : Prop :=
  NoDup (map fst d)
  /\ forall a, dict_get d a = match by_author author a l with
                              | [] => None
                              | items => Some items
                              end.

(** A post with comments whose fetch fails, one with none, one with a tree
    and an orphan. *)
Definition failing_post : Submission.t :=
  Submission.mk (Some "a") 0 1 0 1 "p" "u" (sample_permalink "p") 3 false
    None (Raise (ClientException "timeout")) [[sample_comment (Some "x") 1 0]].

Definition silent_post : Submission.t :=
  Submission.mk (Some "a") 0 1 0 1 "p" "u" (sample_permalink "p") 0 false
    None (Ok [sample_comment (Some "y") 1 0]) [[sample_comment (Some "z") 1 0]].

Definition busy_post : Submission.t :=
  Submission.mk (Some "a") 0 1 0 1 "p" "u" (sample_permalink "p") 2 false
    None (Ok [sample_comment (Some "x") 2 0]) [[sample_comment None 3 0]].

Definition commented_stats : SubRedditStats :=
  mkSRS None "test" [failing_post; silent_post; busy_post] [] [] [] 0%Q 0%Q None.

(** A report of the account itself, created at [t]. *)
Definition report_at (t : Z) (text : option string) : Submission.t :=
  Submission.mk (Some "statsbot") (inject_Z t) 1 0 1 "Subreddit Stats: test" "u"
    (sample_permalink "prev") 0 true text (Ok []) [].

Definition is_sleep (ev : event) : bool :=
  match ev with
  | Sleep _ => true
  | _ => false
  end.







(** A run that finds one post with comments and asks for ten commenters. *)
Definition talkative_options : Options.t :=
  Options.mk 5 10 0 false None None false None.

Definition talkative_post : Submission.t :=
  Submission.mk (Some "alice") (inject_Z 30) 4 1 3 "p" "u" (sample_permalink "p")
    2 false None (Ok [sample_comment (Some "x") 2 0])
    [[sample_comment None 3 0]].

Definition talkative_world : world :=
  mkWorld (inject_Z 1000000) (Some "statsbot") (as_previous "")
    [talkative_post] [] "y" [Returns "http://new"].

(** * Properties *)

(** ** Strings *)



Lemma str_app_nonempty_r (a b : string) : b <> "" -> a +++ b <> "".
Proof. destruct a; simpl; [easy | discriminate]. Qed.


(** ** The marker protocol *)

Section Marker.


Lemma strip_prefix_inv (p s r : string) :
  strip_prefix p s = Some r -> s = p +++ r.
Proof.
  revert s; induction p as [|a p IH]; intros [|b s]; simpl; try congruence.
  destruct (Ascii.eqb_spec a b); [subst | discriminate].
  intros H; now rewrite (IH _ H).
Qed.







End Marker.

(** ** The shrink loop *)

Lemma countdown_step (hi lo : Z) :
  lo <= hi -> countdown hi (lo - 1) = countdown hi lo ++ [lo].
Proof.
  intros H. unfold countdown.
  replace (Z.to_nat (hi - (lo - 1))) with (S (Z.to_nat (hi - lo))) by lia.
  rewrite seq_S, map_app. simpl. do 2 f_equal. lia.
Qed.

Section ShrinkLoop.

Variable render : Z -> result string.
Variable assemble : string -> string.
Hypothesis assemble_nonempty : forall t, assemble t <> "".

Lemma shrink_inv_body (st : shrink_state) :
  shrink_inv render assemble st -> body st <> "".
Proof. intros (_ & _ & (t & _ & ->) & _). apply assemble_nonempty. Qed.

Lemma shrink_cond_inv (st : shrink_state) :
  shrink_inv render assemble st ->
  shrink_cond st = (oversize (body st) && (2 <? num_submissions st))%bool.
Proof.
  intros H. unfold shrink_cond, oversize.
  apply shrink_inv_body in H.
  destruct (String.eqb_spec (body st) ""); [contradiction | reflexivity].
Qed.

Lemma shrink_inv_step (st : shrink_state) (t : string) :
  shrink_inv render assemble st -> shrink_cond st = true ->
  render (num_submissions st) = Ok t ->
  shrink_inv render assemble (mkShrink (assemble t) (num_submissions st - 1)
                       (rendered st ++ [num_submissions st])).
Proof.
  intros Hinv Hc Hr. rewrite (shrink_cond_inv _ Hinv) in Hc.
  apply andb_true_iff in Hc as [Hov Hk]. apply Z.ltb_lt in Hk.
  destruct Hinv as (Hrange & Hren & (t0 & Ht0 & Hb) & Hprev).
  unfold shrink_inv; cbn [body num_submissions rendered].
  repeat split; try lia.
  - rewrite Hren. symmetry. apply countdown_step. lia.
  - exists t. split; [|reflexivity].
    now replace (num_submissions st - 1 + 1) with (num_submissions st) by lia.
  - intros k Hk'.
    destruct (Z.eq_dec k (num_submissions st + 1)) as [->|Hne].
    + exists t0. split; [assumption|]. now rewrite <- Hb.
    + apply Hprev. lia.
Qed.

Lemma shrink_loop_inv (fuel : nat) (st st' : shrink_state) :
  shrink_inv render assemble st ->
  shrink_loop fuel render assemble st = Some (Ok st') ->
  shrink_inv render assemble st' /\ shrink_cond st' = false.
Proof.
  revert st; induction fuel as [|fuel IH]; intros st Hinv; [discriminate|].
  cbn [shrink_loop]. destruct (shrink_cond st) eqn:Hc.
  - destruct (render (num_submissions st)) as [t|e] eqn:Hr; [|discriminate].
    apply IH. now apply shrink_inv_step.
  - intros [= <-]. now split.
Qed.

Lemma shrink_start_step (t : string) :
  render 10 = Ok t -> shrink_inv render assemble (mkShrink (assemble t) (10 - 1) ([] ++ [10])).
Proof.
  intros Hr. unfold shrink_inv; cbn [body num_submissions rendered].
  repeat split; try lia.
  exists t. now split.
Qed.

Lemma shrink_loop_start (fuel : nat) (st' : shrink_state) :
  shrink_loop fuel render assemble shrink_start = Some (Ok st') ->
  shrink_inv render assemble st' /\ shrink_cond st' = false.
Proof.
  destruct fuel as [|fuel]; [discriminate|].
  cbn [shrink_loop]. change (shrink_cond shrink_start) with true.
  cbn [num_submissions shrink_start].
  destruct (render 10) as [t|e] eqn:Hr; [|discriminate].
  apply shrink_loop_inv. now apply shrink_start_step.
Qed.

(** The loop ends: each test of the condition either leaves or lowers the
    counter, which never goes below 2. *)
Lemma shrink_loop_terminates_inv (fuel : nat) (st : shrink_state) :
  shrink_inv render assemble st ->
  (Z.to_nat (num_submissions st - 1) <= fuel)%nat ->
  shrink_loop fuel render assemble st <> None.
Proof.
  revert st; induction fuel as [|fuel IH]; intros st Hinv Hf.
  - destruct Hinv as (Hrange & _). lia.
  - cbn [shrink_loop]. destruct (shrink_cond st) eqn:Hc; [|discriminate].
    destruct (render (num_submissions st)) as [t|e] eqn:Hr; [|discriminate].
    apply IH; [now apply shrink_inv_step|].
    cbn [num_submissions]. lia.
Qed.

Lemma shrink_loop_terminates (fuel : nat) :
  (9 <= fuel)%nat -> shrink_loop fuel render assemble shrink_start <> None.
Proof.
  intros Hf. destruct fuel as [|fuel]; [lia|].
  cbn [shrink_loop]. change (shrink_cond shrink_start) with true.
  cbn [num_submissions shrink_start].
  destruct (render 10) as [t|e] eqn:Hr; [|discriminate].
  apply shrink_loop_terminates_inv; [now apply shrink_start_step|].
  cbn [num_submissions]. lia.
Qed.

(** When the loop leaves with a body over the budget, the counter is 2 and
    the last rendering was made with 3. *)
Lemma shrink_loop_oversize (st : shrink_state) :
  shrink_inv render assemble st -> shrink_cond st = false -> oversize (body st) = true ->
  num_submissions st = 2
  /\ rendered st = [10; 9; 8; 7; 6; 5; 4; 3]
  /\ exists t, render 3 = Ok t /\ body st = assemble t.
Proof.
  intros Hinv Hc Hov. rewrite (shrink_cond_inv _ Hinv), Hov in Hc.
  cbn [andb] in Hc. apply Z.ltb_ge in Hc.
  destruct Hinv as (Hrange & Hren & Hlast & _).
  assert (Hk : num_submissions st = 2) by lia.
  rewrite Hk in *. repeat split; assumption.
Qed.

End ShrinkLoop.

Lemma post_footer_nonempty (prev : string) (x : Q) : post_footer prev x <> "".
Proof. discriminate. Qed.

Lemma assemble_body_nonempty (parts : fixed_parts) (t : string) :
  footer parts <> "" -> assemble_body parts t <> "".
Proof.
  intros H. unfold assemble_body.
  repeat apply str_app_nonempty_r. assumption.
Qed.

Lemma render_fixed_footer version timef self c s m top parts :
  render_fixed version timef self c s m top = Ok parts ->
  exists prev, footer parts = post_footer prev (max_date self).
Proof.
  unfold render_fixed.
  destruct (match prev_srs self with Some _ => _ | None => _ end) as [prev|];
    [|discriminate].
  cbn [bind]. destruct (basic_stats version self); [|discriminate].
  cbn [bind]. destruct (top_submissions self s); [|discriminate].
  cbn [bind]. destruct (top_comments self m); [|discriminate].
  cbn [bind]. intros [= <-]. now exists prev.
Qed.

(** ** Sorting *)

Section SortedFacts.

Context {A K : Type} (ltb : K -> K -> bool) (key : A -> K).

Hypothesis ltb_asym : forall a b, ltb a b = true -> ltb b a = false.
Hypothesis ltb_negtrans :
  forall a b c, ltb a b = false -> ltb b c = false -> ltb a c = false.

Lemma insert_perm (reverse : bool) (x : A) (l : list A) :
  Permutation (Py.insert ltb key reverse x l) (x :: l).
Proof.
  induction l as [|y l IH]; simpl; [reflexivity|].
  destruct (Py.goes_after ltb key reverse y x); [|reflexivity].
  rewrite IH. apply perm_swap.
Qed.

Lemma sorted_perm (reverse : bool) (l : list A) :
  Permutation (Py.sorted ltb key reverse l) l.
Proof.
  induction l as [|x l IH]; simpl; [reflexivity|].
  rewrite insert_perm. now constructor.
Qed.

Lemma insert_desc (x : A) (l : list A) :
  StronglySorted (desc ltb key) l -> StronglySorted (desc ltb key) (Py.insert ltb key true x l).
Proof.
  induction 1 as [|y l Hl IH Hy]; simpl.
  - repeat constructor.
  - unfold Py.goes_after. destruct (ltb (key x) (key y)) eqn:Hxy.
    + constructor; [assumption|].
      eapply Permutation_Forall; [symmetry; apply insert_perm|].
      constructor; [|assumption]. unfold desc. now apply ltb_asym.
    + constructor; [now constructor|].
      constructor; [exact Hxy|].
      eapply Forall_impl; [|exact Hy].
      intros z Hz. unfold desc in *. eapply ltb_negtrans; eassumption.
Qed.

Lemma sorted_desc (l : list A) :
  StronglySorted (desc ltb key) (Py.sorted ltb key true l).
Proof.
  induction l as [|x l IH]; simpl; [constructor | now apply insert_desc].
Qed.

Lemma desc_app_inv (l1 l2 : list A) :
  StronglySorted (desc ltb key) (l1 ++ l2) ->
  StronglySorted (desc ltb key) l1
  /\ forall x y, In x l1 -> In y l2 -> desc ltb key x y.
Proof.
  induction l1 as [|a l1 IH]; simpl; intros H.
  - split; [constructor | intros x y []].
  - inversion H as [|? ? Hs Hf]; subst.
    destruct (IH Hs) as [Hs1 Hc].
    apply Forall_app in Hf as [Hf1 Hf2]. split.
    + now constructor.
    + intros x y [<-|Hx] Hy; [|now apply Hc].
      rewrite Forall_forall in Hf2. now apply Hf2.
Qed.

(** A slice [[:k]] of the descending sort: it is descending, it is the
    head of a permutation of the input, and nothing left out is ranked
    above anything kept. *)
Lemma slice_sorted_desc (k : Z) (l : list A) :
  let top := Py.slice_to k (Py.sorted ltb key true l) in
  StronglySorted (desc ltb key) top
  /\ exists rest, Permutation l (top ++ rest)
                  /\ forall x y, In x top -> In y rest -> desc ltb key x y.
Proof.
  assert (Hm : exists m, Py.slice_to k (Py.sorted ltb key true l)
                         = firstn m (Py.sorted ltb key true l))
    by (unfold Py.slice_to; destruct (0 <=? k); eauto).
  destruct Hm as [m Hm]. cbn zeta. rewrite Hm.
  pose proof (sorted_desc l) as Hs.
  rewrite <- (firstn_skipn m (Py.sorted ltb key true l)) in Hs.
  apply desc_app_inv in Hs as [Hs1 Hc]. split; [assumption|].
  exists (skipn m (Py.sorted ltb key true l)). split; [|assumption].
  rewrite firstn_skipn. symmetry. apply sorted_perm.
Qed.

End SortedFacts.

Lemma Zltb_asym (a b : Z) : (a <? b) = true -> (b <? a) = false.
Proof. intros H. apply Z.ltb_lt in H. apply Z.ltb_ge. lia. Qed.

Lemma Zltb_negtrans (a b c : Z) :
  (a <? b) = false -> (b <? c) = false -> (a <? c) = false.
Proof. rewrite !Z.ltb_ge. lia. Qed.

Lemma pair_ltb_false_iff (a b : Z * Z) :
  Py.pair_ltb a b = false
  <-> fst b < fst a \/ (fst b = fst a /\ snd b <= snd a).
Proof.
  unfold Py.pair_ltb.
  destruct (Z.ltb_spec (fst a) (fst b)), (Z.eqb_spec (fst a) (fst b)),
    (Z.ltb_spec (snd a) (snd b)); simpl; split; intros; try discriminate;
    try reflexivity; lia.
Qed.

Lemma pair_ltb_true_iff (a b : Z * Z) :
  Py.pair_ltb a b = true
  <-> fst a < fst b \/ (fst a = fst b /\ snd a < snd b).
Proof.
  unfold Py.pair_ltb.
  destruct (Z.ltb_spec (fst a) (fst b)), (Z.eqb_spec (fst a) (fst b)),
    (Z.ltb_spec (snd a) (snd b)); simpl; split; intros; try discriminate;
    try reflexivity; lia.
Qed.

Lemma pair_ltb_asym (a b : Z * Z) :
  Py.pair_ltb a b = true -> Py.pair_ltb b a = false.
Proof. rewrite pair_ltb_true_iff, pair_ltb_false_iff. lia. Qed.

Lemma pair_ltb_negtrans (a b c : Z * Z) :
  Py.pair_ltb a b = false -> Py.pair_ltb b c = false -> Py.pair_ltb a c = false.
Proof. rewrite !pair_ltb_false_iff. lia. Qed.

Lemma StronglySorted_impl {A} (R R' : A -> A -> Prop) (l : list A) :
  (forall x y, R x y -> R' x y) -> StronglySorted R l -> StronglySorted R' l.
Proof.
  intros HR. induction 1 as [|x l Hl IH Hx]; constructor; [assumption|].
  eapply Forall_impl; [|exact Hx]. auto.
Qed.

(** ** Ranking authors *)

Lemma desc_outranks {A} (score : A -> Z) (x y : string * list A) :
  desc Py.pair_ltb (author_key score) x y <-> outranks score x y.
Proof. unfold desc, outranks. now rewrite pair_ltb_false_iff. Qed.

Lemma top_authors_sorted {A} (score : A -> Z) (d : groups A) (num : Z) :
  StronglySorted (outranks score) (top_authors score d num)
  /\ exists rest,
       Permutation d (top_authors score d num ++ rest)
       /\ forall x y, In x (top_authors score d num) -> In y rest ->
                      outranks score x y.
Proof.
  destruct (slice_sorted_desc Py.pair_ltb (author_key score)
              pair_ltb_asym pair_ltb_negtrans num d) as [Hs (rest & Hp & Hc)].
  split.
  - eapply StronglySorted_impl; [|exact Hs].
    intros x y. apply desc_outranks.
  - exists rest. split; [exact Hp|].
    intros x y Hx Hy. apply desc_outranks. now apply Hc.
Qed.

Lemma top_items_sorted {A} (score : A -> Z) (items : list A) (num : Z) :
  StronglySorted (fun x y => score y <= score x) (top_items score items num)
  /\ exists rest,
       Permutation items (top_items score items num ++ rest)
       /\ forall x y, In x (top_items score items num) -> In y rest ->
                      score y <= score x.
Proof.
  destruct (slice_sorted_desc Z.ltb score Zltb_asym Zltb_negtrans num items)
    as [Hs (rest & Hp & Hc)].
  split.
  - eapply StronglySorted_impl; [|exact Hs].
    intros x y H. now apply Z.ltb_ge in H.
  - exists rest. split; [exact Hp|].
    intros x y Hx Hy. apply Z.ltb_ge. now apply Hc.
Qed.

Lemma sample_groups_nodup : NoDup [group_A; group_B; group_C].
Proof.
  repeat constructor; simpl; intros H;
    repeat (destruct H as [H|H]; [vm_compute in H; discriminate|]);
    exact H.
Qed.

Lemma perm3_cases {A} (a b c : A) (d : list A) :
  NoDup [a; b; c] -> Permutation d [a; b; c] ->
  d = [a; b; c] \/ d = [a; c; b] \/ d = [b; a; c]
  \/ d = [b; c; a] \/ d = [c; a; b] \/ d = [c; b; a].
Proof.
  intros Hnd Hp.
  assert (Hnd' : NoDup d) by (eapply Permutation_NoDup; [symmetry|]; eassumption).
  pose proof (Permutation_length Hp) as Hl.
  destruct d as [|x [|y [|z [|]]]]; try discriminate.
  assert (Hx : In x [a; b; c]) by (eapply Permutation_in; [exact Hp | simpl; auto]).
  assert (Hy : In y [a; b; c]) by (eapply Permutation_in; [exact Hp | simpl; auto]).
  assert (Hz : In z [a; b; c]) by (eapply Permutation_in; [exact Hp | simpl; auto]).
  inversion Hnd' as [|? ? Hn1 Hnd1]; subst.
  inversion Hnd1 as [|? ? Hn2 _]; subst.
  simpl in Hx, Hy, Hz, Hn1, Hn2.
  destruct Hx as [<-|[<-|[<-|[]]]], Hy as [<-|[<-|[<-|[]]]],
    Hz as [<-|[<-|[<-|[]]]];
    try (exfalso; apply Hn1; auto; fail);
    try (exfalso; apply Hn2; auto; fail);
    auto 10.
Qed.

(** C7. [top_authors] is in descending order of (total score, item count):
    total first, count as the tie-break; it is the head of a permutation of
    the groups and nothing left out is ranked above an entry kept.  With
    submitters A (100 points, 3 posts), B (100, 5) and C (90, 10), in
    whatever order the mapping yields them, [n = 3] gives B, A, C. *)
Theorem top_authors_ranking :
  (forall (A : Type) (score : A -> Z) (d : groups A) (num : Z),
      StronglySorted (outranks score) (top_authors score d num)
      /\ exists rest,
           Permutation d (top_authors score d num ++ rest)
           /\ forall x y, In x (top_authors score d num) -> In y rest ->
                          outranks score x y)
  /\ author_key Submission.score group_A = (100, 3)
  /\ author_key Submission.score group_B = (100, 5)
  /\ author_key Submission.score group_C = (90, 10)
  /\ forall d, Permutation d [group_A; group_B; group_C] ->
               map fst (top_authors Submission.score d 3) = ["B"; "A"; "C"].
Proof.
  split; [intros; apply top_authors_sorted|].
  repeat (split; [reflexivity|]).
  intros d Hp.
  destruct (perm3_cases _ _ _ _ sample_groups_nodup Hp)
    as [->|[->|[->|[->|[->| ->]]]]]; reflexivity.
Qed.

(** The example with the mapping yielding C, A, B. *)
Lemma top_authors_ranking_witness :
  Permutation [group_C; group_A; group_B] [group_A; group_B; group_C]
  /\ map fst (top_authors Submission.score [group_C; group_A; group_B] 3)
     = ["B"; "A"; "C"].
Proof.
  assert (Hp : Permutation [group_C; group_A; group_B]
                           [group_A; group_B; group_C]).
  { exact (Permutation_cons_append [group_A; group_B] group_C). }
  split; [exact Hp|].
  exact (proj2 (proj2 (proj2 (proj2 top_authors_ranking))) _ Hp).
Defined.

(** ** Ranking scores of posts and comments *)

(** C8. Comments are ranked by [ups - downs], posts by their [score] field:
    the lists rendered by [top_comments] and [top_commenters] are in
    descending order of the vote difference (of its total, for authors),
    those rendered by [top_submissions] and [top_submitters] in descending
    order of [score]; the votes of a post play no part in its rank. *)
Theorem ranking_score_asymmetry :
  (forall (self : SubRedditStats) (num : Z),
      let n := Py.min num (Py.len (comments self)) in
      let ranked := top_items comment_score (comments self) n in
      top_comments self num
      = (if n <=? 0 then Ok ""
         else retval <- render_each comment_line ranked (post_header "Top Comments") ;;
              Ok (retval +++ nl))
      /\ StronglySorted
           (fun x y => Comment.ups y - Comment.downs y
                       <= Comment.ups x - Comment.downs x) ranked)
  /\ (forall (self : SubRedditStats) (num : Z),
        let n := Py.min num (Py.len (commenters self)) in
        let ranked := top_authors comment_score (commenters self) n in
        top_commenters self num
        = (if n <=? 0 then ""
           else fold_left (fun retval entry => retval +++ commenter_line entry)
                  ranked (post_header "Top Commenters") +++ nl)
        /\ StronglySorted
             (outranks (fun c => Comment.ups c - Comment.downs c)) ranked)
  /\ (forall (self : SubRedditStats) (num : Z),
        let n := Py.min num (Py.len (submissions self)) in
        let ranked := top_items Submission.score (submissions self) n in
        top_submissions self num
        = (if n <=? 0 then Ok ""
           else retval <- render_each submission_line ranked
                            (post_header "Top Submissions") ;;
                Ok (retval +++ nl))
        /\ StronglySorted
             (fun x y => Submission.score y <= Submission.score x) ranked)
  /\ (forall (self : SubRedditStats) (num k : Z),
        let n := Py.min num (Py.len (submitters self)) in
        let ranked := top_authors Submission.score (submitters self) n in
        top_submitters self num k
        = (if n <=? 0 then Ok ""
           else render_each (submitter_block k) ranked
                  (post_header ("Top Submitters" +++ quote +++ " Top Submissions")))
        /\ StronglySorted (outranks Submission.score) ranked)
  /\ top_items Submission.score [post_low_score; post_high_score] 2
     = [post_high_score; post_low_score]
  /\ Submission.ups post_high_score - Submission.downs post_high_score
     < Submission.ups post_low_score - Submission.downs post_low_score.
Proof.
  repeat split; try reflexivity.
  - apply (top_items_sorted comment_score).
  - apply (top_authors_sorted comment_score).
  - apply (top_items_sorted Submission.score).
  - apply (top_authors_sorted Submission.score).
Qed.

(** ** The retrying caller *)






(** ** Publishing *)

Lemma _submit_events (call : event) (script : list response) (ev : event) :
  In ev (fst (fst (_submit call script))) -> is_call ev = true -> ev = call.
Proof.
  induction script as [|r script IH]; [intros []|].
  cbn [_submit].
  assert (Hretry : forall t,
             In ev (fst (fst (let '(tr, out, rest) := _submit call script in
                              (call :: sleep t ++ tr, out, rest)))) ->
             is_call ev = true -> ev = call).
  { intros t. destruct (_submit call script) as [[tr out] rest].
    cbn [fst sleep app]. intros [H|[H|[H|H]]] Hc; subst; try discriminate; auto. }
  destruct r as [v|e].
  - cbn [fst]. intros [H|[]]. auto.
  - destruct e; try (cbn [fst]; intros [H|[]]; now auto).
    + apply Hretry.
    + destruct (first_rate_limit errors); [apply Hretry|].
      cbn [fst]. intros [H|[]]. auto.
Qed.

Lemma publish_body_calls str_exn self subreddit debug title body line script ev :
  In ev (fst (publish_body str_exn self subreddit debug title body line script)) ->
  is_call ev = true ->
  ev = Call subreddit title body /\ oversize body = false.
Proof.
  unfold publish_body.
  destruct (oversize body) eqn:Hov; cbn [orb negb].
  - cbn [fst app]. intros [H|[H|[H|[]]]] Hc; subst; discriminate.
  - destruct debug; cbn [negb].
    + cbn [fst app]. intros [H|[H|[]]] Hc; subst; discriminate.
    + destruct (confirmed line); cbn [negb].
      * pose proof (_submit_events (Call subreddit title body) script ev) as Hs.
        destruct (_submit (Call subreddit title body) script) as [[tr out] rest].
        cbn [fst] in Hs.
        assert (Hin : forall tail,
                   In ev ([] ++ [Stdout
                     ("You are about to submit to subreddit " +++ subreddit
                      +++ " as " +++ str_opt (user self) +++ "." +++ nl
                      +++ "Are you sure? yes/[no]: "); Flush] ++ tr ++ tail) ->
                   (forall x, In x tail -> is_call x = false) ->
                   is_call ev = true ->
                   ev = Call subreddit title body /\ false = false).
        { intros tail Hin Htail Hc. cbn [app] in Hin.
          destruct Hin as [H|[H|H]]; try (subst; discriminate).
          apply in_app_or in H as [H|H]; [split; auto|].
          apply Htail in H. congruence. }
        destruct out as [[permalink|error]|].
        -- cbn [fst]. intros H. apply (Hin _ H).
           intros x [<-|[]]; reflexivity.
        -- destruct (is_Exception error); cbn [fst]; intros H.
           ++ apply (Hin _ H). intros x [<-|[<-|[<-|[]]]]; reflexivity.
           ++ rewrite <- (app_nil_r tr) in H. apply (Hin _ H). intros x [].
        -- cbn [fst]. intros H. rewrite <- (app_nil_r tr) in H.
           apply (Hin _ H). intros x [].
      * cbn [fst app]. intros [H|[H|[H|[H|[H|[]]]]]] Hc; subst; discriminate.
Qed.

(** C3. A body longer than [MAX_BODY_SIZE] is never submitted.  In every
    run of [publish_results], whatever [reddit.submit] is called with is
    within the budget; and when the body left by the shrink loop is over
    the budget, the run reads no answer and makes no call: it prints the
    notice, the title and the body, whatever [debug], the input line and
    the service are. *)
Theorem oversize_never_submitted
    (version : py_version) (timef : Q -> string) (str_exn : exn -> string)
    (fuel : nat) (self : SubRedditStats) (target : string)
    (n_submitters n_commenters n_submissions n_comments : Z)
    (top : option string) (debug : bool) (line : string)
    (script : list response) :
  let run :=
    publish_results version timef str_exn fuel self target n_submitters
      n_commenters n_submissions n_comments top debug line script in
  (forall sr t text,
      In (Call sr t text) (fst run) ->
      Z.of_nat (String.length text) <= MAX_BODY_SIZE)
  /\ (forall parts st,
        assemble_report version timef fuel self n_submitters n_commenters
          n_submissions n_comments top = Some (Ok (parts, st)) ->
        oversize (body st) = true ->
        run = ([print "The resulting message is too big. Not submitting.";
                print (title parts); print (body st)],
               Some (Ok tt))).
Proof.
  cbv zeta. unfold publish_results. split.
  - intros sr t text.
    destruct (assemble_report version timef fuel self n_submitters n_commenters
                n_submissions n_comments top) as [[[parts st]|e]|];
      try (intros []).
    intros Hin. apply publish_body_calls in Hin as [Heq Hov]; [|reflexivity].
    injection Heq as -> -> ->. unfold oversize in Hov.
    now apply Z.ltb_ge in Hov.
  - intros parts st -> Hov. unfold publish_body. rewrite Hov. reflexivity.
Qed.

(** What [assemble_report] leaves behind when it returns. *)
Lemma assemble_report_inv version timef fuel self n c s m top parts st :
  assemble_report version timef fuel self n c s m top = Some (Ok (parts, st)) ->
  render_fixed version timef self c s m top = Ok parts
  /\ shrink_inv (top_submitters self n) (assemble_body parts) st
  /\ shrink_cond st = false.
Proof.
  unfold assemble_report.
  destruct (render_fixed version timef self c s m top) as [parts'|e] eqn:Hf;
    [|discriminate].
  destruct (shrink_loop fuel (top_submitters self n) (assemble_body parts')
              (mkShrink "" 10 [])) as [[st'|e]|] eqn:Hl; try discriminate.
  intros [= -> ->]. split; [reflexivity|].
  apply (shrink_loop_start _ _) in Hl; [assumption|].
  intros t. apply assemble_body_nonempty.
  destruct (render_fixed_footer _ _ _ _ _ _ _ _ Hf) as [prev ->].
  apply post_footer_nonempty.
Qed.

Lemma assemble_report_total version timef fuel self n c s m top :
  (9 <= fuel)%nat ->
  assemble_report version timef fuel self n c s m top <> None.
Proof.
  intros Hf. unfold assemble_report.
  destruct (render_fixed version timef self c s m top) as [parts|e] eqn:Hr;
    [|discriminate].
  pose proof (shrink_loop_terminates (top_submitters self n)
                (assemble_body parts)) as Ht.
  destruct (shrink_loop fuel (top_submitters self n) (assemble_body parts)
              (mkShrink "" 10 [])) as [[st|e]|] eqn:Hl; try discriminate.
  exfalso. apply (Ht ltac:(intros t; apply assemble_body_nonempty;
                           destruct (render_fixed_footer _ _ _ _ _ _ _ _ Hr)
                             as [prev ->]; apply post_footer_nonempty)
                     fuel Hf).
  exact Hl.
Qed.


(** ** The shrink loop inside [publish_results] *)

(** C2, as the code has it.  With enough fuel the assembly always ends.
    When it returns, [top_submitters] was called with 10, 9, ... down to one
    above the final counter, which lies between 2 and 9; the body is the one
    assembled from the last of these renderings and every earlier one was
    over the budget.  When the final body is still over the budget, the
    counter is 2 and the last rendering was made with 3: the renderings are
    those for 10 down to 3. *)
Theorem shrink_loop_renders_down_to_three
    (version : py_version) (timef : Q -> string) (fuel : nat)
    (self : SubRedditStats)
    (n_submitters n_commenters n_submissions n_comments : Z)
    (top : option string) :
  (9 <= fuel)%nat ->
  match assemble_report version timef fuel self n_submitters n_commenters
          n_submissions n_comments top with
  | None => False
  | Some (Raise _) => True
  | Some (Ok (parts, st)) =>
      2 <= num_submissions st <= 9
      /\ rendered st = countdown 10 (num_submissions st)
      /\ (exists t, top_submitters self n_submitters (num_submissions st + 1) = Ok t
                    /\ body st = assemble_body parts t)
      /\ (forall k, num_submissions st + 1 < k <= 10 ->
                    exists t, top_submitters self n_submitters k = Ok t
                              /\ oversize (assemble_body parts t) = true)
      /\ (oversize (body st) = true ->
          num_submissions st = 2
          /\ rendered st = [10; 9; 8; 7; 6; 5; 4; 3]
          /\ exists t, top_submitters self n_submitters 3 = Ok t
                       /\ body st = assemble_body parts t)
  end.
Proof.
  intros Hf.
  pose proof (assemble_report_total version timef fuel self n_submitters
                n_commenters n_submissions n_comments top Hf) as Htot.
  destruct (assemble_report version timef fuel self n_submitters n_commenters
              n_submissions n_comments top) as [[[parts st]|e]|] eqn:Ha;
    [|exact I|congruence].
  apply assemble_report_inv in Ha as (Hfix & Hinv & Hc).
  pose proof Hinv as (Hrange & Hren & Hlast & Hprev).
  repeat (split; [assumption|]).
  intros Hov.
  eapply shrink_loop_oversize; try eassumption.
  intros t. apply assemble_body_nonempty.
  destruct (render_fixed_footer _ _ _ _ _ _ _ _ Hfix) as [prev ->].
  apply post_footer_nonempty.
Qed.

(** ** The marker of an assembled report *)






(** ** Concrete runs *)

(** The sample instances assemble without an exception. *)
Lemma report_of_eq (self : SubRedditStats) :
  report_ok self = true ->
  assemble_report Py3 sample_timef 9 self 5 10 5 5 None
  = Some (Ok (fst (report_of self), snd (report_of self))).
Proof.
  unfold report_ok, report_of.
  destruct (assemble_report Py3 sample_timef 9 self 5 10 5 5 None)
    as [[[parts st]|e]|]; intros H; try discriminate H; reflexivity.
Qed.

(** No rendering of the instance with the long title fits. *)
Lemma big_report_oversize : oversize (body (snd (report_of big_stats))) = true.
Proof. vm_compute. reflexivity. Qed.

(** C2, as stated, fails: on an instance none of whose renderings fits, the
    loop leaves with an oversize body whose last rendering of the
    top-submitters section was made with 3, not 2; the rendering for 2 would
    have been a different, shorter one. *)
Lemma shrink_loop_stops_at_three :
  assemble_report Py3 sample_timef 9 big_stats 5 10 5 5 None
  = Some (Ok (fst (report_of big_stats), snd (report_of big_stats)))
  /\ oversize (body (snd (report_of big_stats))) = true
  /\ rendered (snd (report_of big_stats)) = [10; 9; 8; 7; 6; 5; 4; 3]
  /\ last_opt (rendered (snd (report_of big_stats))) <> Some 2
  /\ rendering_length (top_submitters big_stats 5 2)
     < rendering_length (top_submitters big_stats 5 3).
Proof.
  split; [apply report_of_eq; vm_compute; reflexivity|].
  split; [exact big_report_oversize|].
  split; [vm_compute; reflexivity|].
  split; [vm_compute; discriminate | vm_compute; reflexivity].
Qed.

Lemma big_report_eq :
  assemble_report Py3 sample_timef 9 big_stats 5 10 5 5 None
  = Some (Ok (fst (report_of big_stats), snd (report_of big_stats))).
Proof. apply report_of_eq. vm_compute. reflexivity. Qed.



(** The instance with the long title: counter 2, renderings for 10 down
    to 3. *)
Lemma shrink_loop_renders_down_to_three_witness :
  (9 <= 9)%nat
  /\ oversize (body (snd (report_of big_stats))) = true
  /\ num_submissions (snd (report_of big_stats)) = 2
  /\ rendered (snd (report_of big_stats)) = [10; 9; 8; 7; 6; 5; 4; 3].
Proof.
  split; [apply le_n|]. split; [exact big_report_oversize|].
  pose proof (shrink_loop_renders_down_to_three Py3 sample_timef 9 big_stats
                5 10 5 5 None (le_n 9)) as H.
  rewrite big_report_eq in H.
  destruct H as (_ & _ & _ & _ & H).
  destruct (H big_report_oversize) as (H1 & H2 & _). split; assumption.
Defined.

(** The instance with the long title, with [debug] off and a [yes] at the
    prompt that is never shown. *)
Lemma oversize_never_submitted_witness :
  oversize (body (snd (report_of big_stats))) = true
  /\ publish_results Py3 sample_timef sample_str_exn 9 big_stats "test"
       5 10 5 5 None false "yes" [Returns "http://x"]
     = ([print "The resulting message is too big. Not submitting.";
         print (title (fst (report_of big_stats)));
         print (body (snd (report_of big_stats)))],
        Some (Ok tt)).
Proof.
  split; [exact big_report_oversize|].
  exact (proj2 (oversize_never_submitted Py3 sample_timef sample_str_exn 9
                  big_stats "test" 5 10 5 5 None false "yes" [Returns "http://x"])
           _ _ big_report_eq big_report_oversize).
Defined.





(** ** The statistics table *)

(** C1 fails on the code: [basic_stats] divides without a guard.  Whenever
    the votes of the posts, or those of the comments, add up to zero, it
    raises [ZeroDivisionError] instead of rendering a table, and
    [publish_results] ends with that exception before writing anything. *)
Theorem basic_stats_zero_total_raises
    (version : py_version) (timef : Q -> string) (str_exn : exn -> string)
    (self : SubRedditStats) :
  Py.sum Submission.ups (submissions self)
  + Py.sum Submission.downs (submissions self) = 0
  \/ Py.sum Comment.ups (comments self)
     + Py.sum Comment.downs (comments self) = 0 ->
  basic_stats version self = Raise ZeroDivisionError
  /\ (prev_srs self = None ->
      forall fuel target n c s m top debug line script,
        publish_results version timef str_exn fuel self target n c s m top
          debug line script
        = ([], Some (Raise ZeroDivisionError))).
Proof.
  intros H.
  assert (Hb : basic_stats version self = Raise ZeroDivisionError).
  { unfold basic_stats, int_div.
    destruct (Z.eqb_spec (Py.sum Submission.ups (submissions self)
                          + Py.sum Submission.downs (submissions self)) 0)
      as [Hs|Hs]; [reflexivity|].
    destruct H as [H|H]; [contradiction|].
    cbn [bind]. rewrite H. reflexivity. }
  split; [exact Hb|].
  intros Hp fuel target n c s m top debug line script.
  unfold publish_results, assemble_report, render_fixed.
  rewrite Hp, Hb. reflexivity.
Qed.

(** The instance without comments. *)
Lemma basic_stats_zero_total_raises_witness :
  Py.sum Comment.ups (comments no_comment_stats)
  + Py.sum Comment.downs (comments no_comment_stats) = 0
  /\ basic_stats Py3 no_comment_stats = Raise ZeroDivisionError
  /\ publish_results Py3 sample_timef sample_str_exn 9 no_comment_stats "test"
       5 0 5 5 None true "" []
     = ([], Some (Raise ZeroDivisionError)).
Proof.
  split; [reflexivity|].
  destruct (basic_stats_zero_total_raises Py3 sample_timef sample_str_exn
              no_comment_stats (or_intror eq_refl)) as [H1 H2].
  split; [exact H1|].
  exact (H2 eq_refl 9%nat "test" 5 0 5 5 None true "" []).
Defined.

(** ** Window resolution *)

Lemma Qle_bool_false (a b : Q) : Qle_bool a b = false -> (b < a)%Q.
Proof.
  intros H. apply Qnot_le_lt. intros Hle.
  apply Qle_bool_iff in Hle. congruence.
Qed.

Lemma Qlt_bool_true (a b : Q) : Qlt_bool a b = true -> (a < b)%Q.
Proof.
  unfold Qlt_bool. intros H. apply negb_true_iff in H.
  now apply Qle_bool_false.
Qed.

Lemma Qlt_bool_false (a b : Q) : Qlt_bool a b = false -> (b <= a)%Q.
Proof.
  unfold Qlt_bool. intros H. apply negb_false_iff in H.
  now apply Qle_bool_iff.
Qed.

Lemma py_max_ge_l (a b : Q) : (a <= Py.max a b)%Q.
Proof.
  unfold Py.max. destruct (Qle_bool b a) eqn:H; [apply Qle_refl|].
  apply Qlt_le_weak. now apply Qle_bool_false.
Qed.

(** Without the search for a previous report, or once one is known, the
    scan leaves the low bound alone. *)
Lemma scan_new_keeps_min_date (ex sl : bool) (listing : list Submission.t) :
  forall self r,
    sl = false \/ prev_srs self <> None ->
    scan_new ex sl listing self = Ok r ->
    min_date (fst (fst r)) = min_date self.
Proof.
  induction listing as [|s listing IH]; intros self r Hp; cbn [scan_new].
  - now intros [= <-].
  - destruct (Qlt_bool (max_date self) (Submission.created_utc s));
      [now apply IH|].
    destruct (Qle_bool (Submission.created_utc s) (min_date self));
      [now intros [= <-]|].
    destruct (is_previous_report sl self s) eqn:Hrep.
    + destruct Hp as [->|Hp]; [discriminate Hrep|].
      destruct (prev_srs self) eqn:Hprev; [|congruence].
      apply IH. right. congruence.
    + destruct (ex && Submission.is_self s)%bool; [now apply IH|].
      intros H. apply IH in H; [exact H | exact Hp].
Qed.

(** C5 fails on the code.  After [prev_stat] has put the marker into
    [min_date], [fetch_recent_submissions] with a positive duration
    overwrites it, and the scan never looks at a marker again because
    [prev_srs] is set: the low bound of the scan is the duration-derived
    one, whatever the marker. *)
Theorem explicit_prev_marker_overridden
    (self self1 : SubRedditStats) (prev_url : string) (fetched : Submission.t)
    (days : Z) (no_self : bool) (listing : list Submission.t)
    (r : SubRedditStats * option Submission.t * list Submission.t) :
  prev_stat self prev_url fetched = Ok self1 ->
  0 < days ->
  scan_new no_self true listing (apply_max_duration days self1) = Ok r ->
  min_date (apply_max_duration days self1)
  = (max_date self - inject_Z (DAYS_IN_SECONDS * days))%Q
  /\ min_date (fst (fst r))
     = (max_date self - inject_Z (DAYS_IN_SECONDS * days))%Q.
Proof.
  intros Hprev Hd Hscan. unfold prev_stat in Hprev.
  destruct (_previous_max fetched) as [m|e]; [|discriminate].
  cbn [bind] in Hprev. injection Hprev as <-.
  assert (Hlow : min_date (apply_max_duration days
                   (set_prev_srs (Some prev_url) (set_min_date m self)))
                 = (max_date self - inject_Z (DAYS_IN_SECONDS * days))%Q).
  { unfold apply_max_duration.
    destruct (Z.eqb_spec days 0); [lia | reflexivity]. }
  split; [exact Hlow|].
  rewrite <- Hlow. apply (scan_new_keeps_min_date no_self true listing _ r);
    [|exact Hscan].
  right. unfold apply_max_duration. destruct (days =? 0); discriminate.
Qed.

(** The marker read is 9950000, yet the scan runs with the low bound
    9913600 and keeps the post created at 9940000. *)
Lemma explicit_prev_marker_overridden_witness :
  _previous_max marked_report = Ok (inject_Z 9950000)
  /\ (min_date (fst (fst marked_scan)) == inject_Z 9913600)%Q
  /\ submissions (fst (fst marked_scan)) = [between_post]
  /\ main_fetch fresh_stats (Some ("http://prev", marked_report)) 1 false
       [between_post]
     = Ok (update_real_dates (fst (fst marked_scan))).
Proof.
  split; [reflexivity|].
  split; [|split; reflexivity].
  rewrite (proj2 (explicit_prev_marker_overridden fresh_stats marked_stats
                    "http://prev" marked_report 1 false [between_post]
                    marked_scan eq_refl eq_refl eq_refl)).
  reflexivity.
Defined.

(** ** The window scan *)

(** What one pass of [scan_new] does, for any listing and any instance. *)
Lemma scan_new_spec (ex sl : bool) (listing : list Submission.t) :
  forall self self' stop rest,
    scan_new ex sl listing self = Ok (self', stop, rest) ->
    (min_date self <= min_date self')%Q
    /\ max_date self' = max_date self
    /\ exists before kept,
         submissions self' = submissions self ++ kept
         /\ listing
            = before ++ match stop with Some p => [p] | None => [] end ++ rest
         /\ (forall p, In p kept ->
                       In p before
                       /\ (min_date self < created p)%Q
                       /\ (created p <= max_date self)%Q)
         /\ (forall q, In q before ->
                       (max_date self < created q)%Q
                       \/ (min_date self < created q)%Q)
         /\ match stop with
            | Some p => (created p <= min_date self')%Q
                        /\ (created p <= max_date self)%Q
            | None => rest = []
            end.
Proof.
  induction listing as [|s listing IH]; intros self self' stop rest;
    cbn [scan_new].
  - intros [= <- <- <-]. split; [apply Qle_refl|]. split; [reflexivity|].
    exists [], []. rewrite app_nil_r.
    split; [reflexivity|]. split; [reflexivity|]. split; [intros p []|].
    split; [intros q [] | reflexivity].
  - destruct (Qlt_bool (max_date self) (created s)) eqn:Hhigh.
    { intros H. apply IH in H as (Hmin & Hmax & before & kept & Hs & Hl & Hk & Hb & Hst).
      split; [exact Hmin|]. split; [exact Hmax|].
      exists (s :: before), kept. split; [exact Hs|].
      split; [now rewrite Hl|]. split.
      - intros p Hp. destruct (Hk p Hp) as (? & ? & ?). repeat split; auto.
        now right.
      - split; [|exact Hst].
        intros q [<-|Hq]; [left; now apply Qlt_bool_true | now apply Hb]. }
    apply Qlt_bool_false in Hhigh.
    destruct (Qle_bool (created s) (min_date self)) eqn:Hlow.
    { intros [= <- <- <-]. apply Qle_bool_iff in Hlow.
      split; [apply Qle_refl|]. split; [reflexivity|].
      exists [], []. rewrite app_nil_r.
      split; [reflexivity|]. split; [reflexivity|]. split; [intros p []|].
      split; [intros q [] | now split]. }
    apply Qle_bool_false in Hlow.
    assert (Hsame : forall self2,
               (min_date self <= min_date self2)%Q ->
               max_date self2 = max_date self ->
               submissions self2 = submissions self ->
               scan_new ex sl listing self2 = Ok (self', stop, rest) ->
               (min_date self <= min_date self')%Q
               /\ max_date self' = max_date self
               /\ exists before kept,
                    submissions self' = submissions self ++ kept
                    /\ s :: listing
                       = before ++ match stop with Some p => [p] | None => [] end
                                ++ rest
                    /\ (forall p, In p kept ->
                                  In p before
                                  /\ (min_date self < created p)%Q
                                  /\ (created p <= max_date self)%Q)
                    /\ (forall q, In q before ->
                                  (max_date self < created q)%Q
                                  \/ (min_date self < created q)%Q)
                    /\ match stop with
                       | Some p => (created p <= min_date self')%Q
                                   /\ (created p <= max_date self)%Q
                       | None => rest = []
                       end).
    { intros self2 Hmin2 Hmax2 Hsub2 H.
      apply IH in H as (Hmin & Hmax & before & kept & Hs & Hl & Hk & Hb & Hst).
      rewrite Hmax2 in *. rewrite Hsub2 in Hs.
      split; [eapply Qle_trans; eassumption|]. split; [exact Hmax|].
      exists (s :: before), kept. split; [exact Hs|].
      split; [now rewrite Hl|]. split.
      - intros p Hp. destruct (Hk p Hp) as (? & ? & ?).
        repeat split; [now right | | assumption].
        eapply Qle_lt_trans; eassumption.
      - split; [|exact Hst].
        intros q [<-|Hq]; [now right|].
        destruct (Hb q Hq) as [?|?]; [now left | right].
        eapply Qle_lt_trans; eassumption. }
    destruct (is_previous_report sl self s).
    { destruct (prev_srs self).
      - apply Hsame; [apply Qle_refl | reflexivity | reflexivity].
      - destruct (_previous_max s) as [m|e]; [|discriminate]. cbn [bind].
        apply Hsame; [apply py_max_ge_l | reflexivity | reflexivity]. }
    destruct (ex && Submission.is_self s)%bool.
    { apply Hsame; [apply Qle_refl | reflexivity | reflexivity]. }
    intros H.
    apply IH in H as (Hmin & Hmax & before & kept & Hs & Hl & Hk & Hb & Hst).
    cbn [min_date max_date submissions set_submissions] in *.
    split; [exact Hmin|]. split; [exact Hmax|].
    exists (s :: before), (s :: kept).
    split; [now rewrite Hs, <- app_assoc|].
    split; [now rewrite Hl|]. split.
    + intros p [<-|Hp]; [repeat split; auto; now left|].
      destruct (Hk p Hp) as (? & ? & ?). repeat split; auto. now right.
    + split; [|exact Hst].
      intros q [<-|Hq]; [now right | now apply Hb].
Qed.

Lemma update_real_dates_submissions (self : SubRedditStats) :
  forall p, In p (submissions (snd (update_real_dates self)))
            <-> In p (submissions self).
Proof.
  intros p. unfold update_real_dates.
  destruct (submissions self) as [|s l] eqn:Hs; [cbn [snd]; now rewrite Hs|].
  set (sorted := Py.sorted Qlt_bool Submission.created_utc false (s :: l)).
  assert (Hp : Permutation sorted (s :: l)) by apply sorted_perm.
  assert (Hin : In p sorted <-> In p (s :: l)).
  { split; apply Permutation_in; [assumption | now symmetry]. }
  destruct sorted as [|first tl] eqn:Hsorted; [now cbn|].
  destruct (last_opt (first :: tl)); cbn; exact Hin.
Qed.



(** * Further properties of the code *)

(** ** The marker scan, in general *)

Lemma match_marker_empty : match_marker "" = None.
Proof. reflexivity. Qed.

(** The scan finds nothing exactly when the pattern matches at no position. *)
Lemma findall_nil_iff (s : string) :
  findall_from 0 s = []
  <-> forall p r, s = p +++ r -> match_marker r = None.
Proof.
  split.
  - intros H p. revert s H. induction p as [|a p IH]; intros s H r ->.
    + cbn [String.append] in H. destruct r as [|b r]; [reflexivity|].
      cbn [findall_from] in H.
      destruct (match_marker (String b r)); [discriminate | reflexivity].
    + cbn [String.append findall_from] in H.
      destruct (match_marker (String a (p +++ r))); [discriminate|].
      now apply (IH _ H).
  - induction s as [|a s IH]; intros H; [reflexivity|].
    cbn [findall_from]. rewrite (H "" (String a s) eq_refl).
    apply IH. intros p r ->. now apply (H (String a p)).
Qed.

(** Every captured group is a non-empty run of digits. *)
Lemma findall_from_digits (s : string) :
  forall skip ds, In ds (findall_from skip s) ->
                  ds <> "" /\ exists r, take_digits r = ds.
Proof.
  induction s as [|a s IH]; intros skip ds; [intros []|].
  cbn [findall_from]. destruct skip as [|k]; [|apply IH].
  unfold match_marker at 1.
  destruct (strip_prefix marker_literal (String a s)) as [r|]; [|apply IH].
  destruct (take_digits r) as [|d ds'] eqn:Hd; [apply IH|].
  intros [<-|H]; [|now apply IH in H].
  split; [discriminate | now exists r].
Qed.

Lemma last_opt_in {A} (l : list A) (x : A) : last_opt l = Some x -> In x l.
Proof.
  induction l as [|y l IH]; [discriminate|].
  destruct l as [|z l]; [intros [= ->]; now left|].
  intros H. right. now apply IH.
Qed.

Lemma last_opt_none {A} (l : list A) : last_opt l = None <-> l = [].
Proof.
  split; [|now intros ->].
  induction l as [|y l IH]; [reflexivity|].
  destruct l as [|z l]; [discriminate|]. intros H. now apply IH in H.
Qed.

(** A run of digits reads as a natural number. *)
Lemma float_of_take_digits (r : string) :
  take_digits r <> "" ->
  exists n, 0 <= n /\ Py.float_of_digits (take_digits r) = Some (inject_Z n).
Proof.
  assert (Hu : forall s, exists u, NilEmpty.uint_of_string (take_digits s) = Some u).
  { induction s as [|a s [u IH]]; [now exists Decimal.Nil|].
    cbn [take_digits]. destruct (is_digit a) eqn:Ha; [|now exists Decimal.Nil].
    cbn [NilEmpty.uint_of_string]. rewrite IH.
    destruct a as [[|] [|] [|] [|] [|] [|] [|] [|]]; try discriminate Ha;
      eexists; reflexivity. }
  intros Hne. destruct (Hu r) as [u Hr]. unfold Py.float_of_digits.
  exists (Z.of_uint u). split; [unfold Z.of_uint; lia|].
  unfold NilZero.uint_of_string.
  destruct (take_digits r); [congruence|]. now rewrite Hr.
Qed.

(** The two outcomes of [_previous_max], and when it aborts. *)
Lemma _previous_max_cases (previous : Submission.t) :
  ((exists n, 0 <= n /\ _previous_max previous = Ok (inject_Z n))
   \/ _previous_max previous = Raise (SystemExit 1))
  /\ (_previous_max previous = Raise (SystemExit 1)
      <-> Submission.selftext previous = None
          \/ exists text,
               Submission.selftext previous = Some text
               /\ forall p r, text = p +++ r -> match_marker r = None).
Proof.
  unfold _previous_max.
  destruct (Submission.selftext previous) as [text|].
  2:{ split; [now right|]. split; [now left | reflexivity]. }
  destruct (last_opt (re_marker_findall text)) as [val|] eqn:Hl.
  - pose proof (last_opt_in _ _ Hl) as Hin.
    apply findall_from_digits in Hin as (Hne & r & <-).
    destruct (float_of_take_digits r Hne) as (n & Hn & Hf). rewrite Hf.
    split; [left; now exists n|]. split; [discriminate|].
    intros [H|(text' & [= <-] & H)]; [discriminate|].
    apply findall_nil_iff in H. unfold re_marker_findall in Hl.
    rewrite H in Hl. discriminate.
  - split; [now right|]. split; [|reflexivity].
    intros _. right. exists text. split; [reflexivity|].
    apply findall_nil_iff. now apply last_opt_none.
Qed.

(** X1. [_previous_max] has two outcomes only: a whole, non-negative number,
    or the abort with [sys.exit(1)].  It aborts exactly when the text is
    missing or the pattern [SRS Marker: (\d+)] matches nowhere in it. *)
Theorem previous_max_outcomes (previous : Submission.t) :
  ((exists n, 0 <= n /\ _previous_max previous = Ok (inject_Z n))
   \/ _previous_max previous = Raise (SystemExit 1))
  /\ (_previous_max previous = Raise (SystemExit 1)
      <-> Submission.selftext previous = None
          \/ exists text,
               Submission.selftext previous = Some text
               /\ forall p r, text = p +++ r -> match_marker r = None).
Proof. exact (_previous_max_cases previous). Qed.

(** ** Locations *)

Lemma split_length (c : ascii) (s : string) :
  List.length (Py.split c s) = S (count_char c s).
Proof.
  induction s as [|a s IH]; [reflexivity|].
  cbn [Py.split count_char]. destruct (Ascii.eqb a c); cbn [List.length].
  - now rewrite IH.
  - destruct (Py.split c s); cbn [List.length] in *; [discriminate | exact IH].
Qed.

Lemma split_no_char (c : ascii) (s : string) :
  count_char c s = O -> Py.split c s = [s].
Proof.
  induction s as [|a s IH]; [reflexivity|].
  cbn [Py.split count_char]. destruct (Ascii.eqb a c); [discriminate|].
  intros H. now rewrite (IH H).
Qed.

Lemma split_app_sep (c : ascii) (x rest : string) :
  count_char c x = O ->
  Py.split c (x +++ String c rest) = x :: Py.split c rest.
Proof.
  induction x as [|a x IH]; cbn [String.append Py.split count_char].
  - now rewrite Ascii.eqb_refl.
  - destruct (Ascii.eqb a c); [discriminate|]. intros H. now rewrite (IH H).
Qed.

(** Splitting undoes joining when no field holds the separator. *)
Lemma split_join (c : ascii) (l : list string) :
  l <> [] -> Forall (fun x => count_char c x = O) l ->
  Py.split c (join (String c "") l) = l.
Proof.
  induction l as [|x l IH]; [congruence|]. intros _ Hall.
  inversion Hall as [|? ? Hx Hl]; subst.
  destruct l as [|y l]; [now apply split_no_char|].
  change (join (String c "") (x :: y :: l))
    with (x +++ String c (join (String c "") (y :: l))).
  rewrite split_app_sep by assumption. f_equal. apply IH; [discriminate | assumption].
Qed.

(** [_permalink] fails on fewer than eight slashes, and only so. *)
Lemma _permalink_index_error (permalink : string) :
  (_permalink permalink = Raise IndexError
   <-> (count_char "/" permalink < 8)%nat)
  /\ forall e, _permalink permalink = Raise e -> e = IndexError.
Proof.
  unfold _permalink, index.
  pose proof (split_length "/" permalink) as Hlen.
  destruct (nth_error (Py.split "/" permalink) 8) as [t8|] eqn:H8.
  - assert (H8' : (8 < List.length (Py.split "/" permalink))%nat)
      by (apply nth_error_Some; congruence).
    destruct (nth_error (Py.split "/" permalink) 6) as [t6|] eqn:H6.
    + cbn [bind]. split.
      * split; [destruct (String.eqb t8 ""); discriminate | lia].
      * intros e. destruct (String.eqb t8 ""); discriminate.
    + apply nth_error_None in H6. lia.
  - apply nth_error_None in H8. cbn [bind]. split.
    + split; [lia | reflexivity].
    + now intros e [= <-].
Qed.

(** The fields of a location are free of slashes when its variable parts
    are. *)
Ltac fields_without_slash Hall :=
  rewrite Forall_forall in Hall; apply Forall_forall;
  intros x Hx; cbn [In] in Hx;
  repeat (destruct Hx as [<-|Hx]; [first [reflexivity | apply Hall; cbn [In]; auto 10]|]);
  contradiction.

(** X2. [_permalink] raises [IndexError] exactly on a location with fewer
    than eight slashes and raises nothing else.  On the location of a
    submission it gives [/comments/<id>/_/], on the location of a comment
    [/comments/<id>/_/<comment id>?context=1]. *)
Theorem permalink_outcomes :
  (forall permalink,
      (_permalink permalink = Raise IndexError
       <-> (count_char "/" permalink < 8)%nat)
      /\ forall e, _permalink permalink = Raise e -> e = IndexError)
  /\ (forall host sub id title,
        Forall (fun x => count_char "/" x = O) [host; sub; id; title] ->
        _permalink (submission_location host sub id title)
        = Ok ("/comments/" +++ id +++ "/_/"))
  /\ (forall host sub id title cid,
        Forall (fun x => count_char "/" x = O) [host; sub; id; title; cid] ->
        cid <> "" ->
        _permalink (comment_location host sub id title cid)
        = Ok ("/comments/" +++ id +++ "/_/" +++ cid +++ "?context=1")).
Proof.
  split; [|split].
  - intros permalink. apply _permalink_index_error.
  - intros host sub id title Hall. unfold _permalink, submission_location.
    rewrite split_join; [reflexivity | discriminate |].
    fields_without_slash Hall.
  - intros host sub id title cid Hall Hcid.
    unfold _permalink, comment_location.
    rewrite split_join; [| discriminate |].
    + cbn [index nth_error bind].
      destruct (String.eqb_spec cid ""); [contradiction | reflexivity].
    + fields_without_slash Hall.
Qed.

Lemma permalink_outcomes_witness :
  Forall (fun x => count_char "/" x = O) ["www.reddit.com"; "test"; "abc"; "title"; "c1"]
  /\ _permalink (comment_location "www.reddit.com" "test" "abc" "title" "c1")
     = Ok "/comments/abc/_/c1?context=1".
Proof.
  assert (H : Forall (fun x => count_char "/" x = O)
                ["www.reddit.com"; "test"; "abc"; "title"; "c1"])
    by (repeat constructor).
  split; [exact H|].
  exact (proj2 (proj2 permalink_outcomes) _ _ _ _ _ H
           ltac:(discriminate)).
Defined.

(** ** Grouping by author *)

Lemma dict_get_append {A} (d : groups A) (k a : string) (x : A) :
  dict_get (dict_append d k x) a
  = if String.eqb k a
    then Some (match dict_get d k with Some xs => xs ++ [x] | None => [x] end)
    else dict_get d a.
Proof.
  induction d as [|[k' xs] d IH]; cbn [dict_append dict_get].
  - reflexivity.
  - destruct (String.eqb_spec k' k) as [->|Hk]; cbn [dict_get].
    + destruct (String.eqb_spec k a); reflexivity.
    + rewrite IH. destruct (String.eqb_spec k a) as [<-|Ha].
      * destruct (String.eqb_spec k' k); [contradiction | reflexivity].
      * reflexivity.
Qed.

Lemma dict_append_keys {A} (d : groups A) (k : string) (x : A) :
  map fst (dict_append d k x)
  = match dict_get d k with
    | Some _ => map fst d
    | None => map fst d ++ [k]
    end.
Proof.
  induction d as [|[k' xs] d IH]; cbn [dict_append dict_get map fst app].
  - reflexivity.
  - destruct (String.eqb k' k); cbn [map fst]; [reflexivity|].
    rewrite IH. now destruct (dict_get d k).
Qed.

Lemma dict_get_in {A} (d : groups A) (k : string) (xs : list A) :
  dict_get d k = Some xs -> In (k, xs) d.
Proof.
  induction d as [|[k' ys] d IH]; cbn [dict_get]; [discriminate|].
  destruct (String.eqb_spec k' k) as [->|Hk].
  - intros [= ->]. now left.
  - intros H. right. now apply IH.
Qed.

Lemma dict_get_none {A} (d : groups A) (k : string) :
  dict_get d k = None -> ~ In k (map fst d).
Proof.
  induction d as [|[k' ys] d IH]; cbn [dict_get map fst]; [intros _ []|].
  destruct (String.eqb_spec k' k) as [->|Hk]; [discriminate|].
  intros H [Hin|Hin]; [contradiction | now apply IH].
Qed.

Lemma in_dict_get {A} (d : groups A) (k : string) (xs : list A) :
  NoDup (map fst d) -> In (k, xs) d -> dict_get d k = Some xs.
Proof.
  induction d as [|[k' ys] d IH]; [intros _ []|].
  cbn [map fst dict_get]. intros Hnd [[= -> ->]|Hin].
  - now rewrite String.eqb_refl.
  - inversion Hnd as [|? ? Hk Hnd']; subst.
    destruct (String.eqb_spec k' k) as [->|Hne]; [|now apply IH].
    exfalso. apply Hk. change k with (fst (k, xs)). now apply in_map.
Qed.

Lemma by_author_snoc {A} (author : A -> option string) (a : string)
    (l : list A) (x : A) :
  by_author author a (l ++ [x])
  = by_author author a l
    ++ match author x with
       | Some b => if String.eqb b a then [x] else []
       | None => []
       end.
Proof.
  unfold by_author. rewrite filter_app. cbn [filter].
  destruct (author x) as [b|]; [destruct (String.eqb b a)|]; reflexivity.
Qed.

Lemma grouped_step {A} (author : A -> option string) (l : list A)
    (d : groups A) (x : A) :
  grouped author l d ->
  grouped author (l ++ [x])
    (match author x with Some a => dict_append d a x | None => d end).
Proof.
  intros [Hnd Hget]. destruct (author x) as [k|] eqn:Hx.
  - split.
    + rewrite dict_append_keys. destruct (dict_get d k) eqn:Hk; [assumption|].
      apply NoDup_app_remove_l with (l := []). cbn [app].
      apply Permutation_NoDup with (l := k :: map fst d).
      * apply Permutation_cons_append.
      * constructor; [now apply dict_get_none | assumption].
    + intros a. rewrite dict_get_append, by_author_snoc, Hx.
      destruct (String.eqb_spec k a) as [<-|Hne].
      * rewrite Hget. destruct (by_author author k l); reflexivity.
      * rewrite Hget, app_nil_r. reflexivity.
  - split; [assumption|]. intros a. now rewrite by_author_snoc, Hx, app_nil_r.
Qed.

Lemma group_all_grouped {A} (author : A -> option string) (l : list A) :
  forall pre d, grouped author pre d ->
                grouped author (pre ++ l) (group_all author l d).
Proof.
  unfold group_all. induction l as [|x l IH]; intros pre d H; cbn [fold_left].
  - now rewrite app_nil_r.
  - replace (pre ++ x :: l) with ((pre ++ [x]) ++ l)
      by now rewrite <- app_assoc.
    apply IH. now apply grouped_step.
Qed.

Lemma grouped_entries {A} (author : A -> option string) (l : list A)
    (d : groups A) :
  grouped author l d ->
  forall a items, In (a, items) d
                  <-> items <> [] /\ items = by_author author a l.
Proof.
  intros [Hnd Hget] a items. split.
  - intros Hin. apply (in_dict_get _ _ _ Hnd) in Hin. rewrite Hget in Hin.
    destruct (by_author author a l); [discriminate|].
    injection Hin as <-. split; [discriminate | reflexivity].
  - intros [Hne ->]. apply dict_get_in. rewrite Hget.
    destruct (by_author author a l); [congruence | reflexivity].
Qed.

(** X3. [process_submitters] on a fresh mapping: the author names are
    distinct keys, and an entry [(a, items)] is present exactly when [a]
    authored something, with [items] the submissions of [a] in fetch order.
    A submission without author is in no entry. *)
Theorem process_submitters_groups (self : SubRedditStats) :
  submitters self = [] ->
  let d := submitters (process_submitters self) in
  NoDup (map fst d)
  /\ (forall a items,
        In (a, items) d
        <-> items <> []
            /\ items = by_author Submission.author a (submissions self))
  /\ (forall a items x,
        In (a, items) d -> In x items ->
        Submission.author x = Some a /\ In x (submissions self))
  /\ submissions (process_submitters self) = submissions self.
Proof.
  intros Hd. cbv zeta.
  assert (Hg : grouped Submission.author (submissions self)
                 (submitters (process_submitters self))).
  { unfold process_submitters. cbn [submitters set_submitters]. rewrite Hd.
    apply (group_all_grouped Submission.author (submissions self) [] []).
    split; [constructor | reflexivity]. }
  split; [exact (proj1 Hg)|]. split; [exact (grouped_entries _ _ _ Hg)|].
  split; [|reflexivity].
  intros a items x Hin Hx.
  apply (grouped_entries _ _ _ Hg) in Hin as [_ ->].
  unfold by_author in Hx. apply filter_In in Hx as [Hx Ha].
  split; [|exact Hx].
  destruct (Submission.author x) as [b|]; [|discriminate].
  apply String.eqb_eq in Ha. now subst.
Qed.

(** Two posts of one author around a post of another. *)
Lemma process_submitters_groups_witness :
  submitters (mkSRS None "test" [post_low_score; post_high_score; post_low_score]
                [] [] [] 0%Q 0%Q None) = []
  /\ In ("a", [post_low_score; post_low_score])
       (submitters
          (process_submitters
             (mkSRS None "test"
                [post_low_score; post_high_score; post_low_score]
                [] [] [] 0%Q 0%Q None))).
Proof.
  split; [reflexivity|].
  apply (proj1 (proj2 (process_submitters_groups
                         (mkSRS None "test"
                            [post_low_score; post_high_score; post_low_score]
                            [] [] [] 0%Q 0%Q None) eq_refl))).
  split; [discriminate | reflexivity].
Defined.

(** ** Collecting comments *)

Lemma collect_comments_tolerant (subs : list Submission.t) :
  forall acc,
    Forall fetch_tolerated subs ->
    collect_comments subs acc = Ok (acc ++ flat_map fetched_comments subs).
Proof.
  induction subs as [|s subs IH]; intros acc Hall; cbn [collect_comments flat_map].
  - now rewrite app_nil_r.
  - inversion Hall as [|? ? Hs Hall']; subst.
    unfold fetched_comments at 1. unfold fetch_tolerated in Hs.
    destruct (Submission.num_comments s =? 0) eqn:Hn; [now apply IH|].
    destruct (Submission.all_comments_flat s) as [cs|e].
    + rewrite IH by assumption. now rewrite <- !app_assoc.
    + destruct e; cbn [is_Exception];
        try (rewrite IH by assumption; now rewrite <- !app_assoc).
      apply Z.eqb_neq in Hn. contradiction.
Qed.

Lemma collect_comments_raises (subs : list Submission.t) :
  forall acc e, collect_comments subs acc = Raise e -> is_Exception e = false.
Proof.
  induction subs as [|s subs IH]; intros acc e; cbn [collect_comments];
    [discriminate|].
  destruct (Submission.num_comments s =? 0); [apply IH|].
  destruct (Submission.all_comments_flat s) as [cs|e']; [apply IH|].
  destruct (is_Exception e') eqn:He; [apply IH|]. now intros [= <-].
Qed.

(** X4. [process_commenters] tolerates failed comment fetches.  When every
    fetch that fails does so with an [Exception], the method returns: the
    comments are, submission by submission in listing order, the fetched
    tree (nothing when the fetch failed) followed by the orphaned comments,
    and nothing at all for a submission whose [num_comments] is 0; they are
    grouped by author as the submissions are.  The only thing the method
    can raise is what is not an [Exception]. *)
Theorem process_commenters_tolerant (self : SubRedditStats) :
  (Forall fetch_tolerated (submissions self) ->
   comments self = [] -> commenters self = [] ->
   exists self',
     process_commenters self = Ok self'
     /\ comments self' = flat_map fetched_comments (submissions self)
     /\ NoDup (map fst (commenters self'))
     /\ (forall a items,
           In (a, items) (commenters self')
           <-> items <> []
               /\ items = by_author Comment.author a (comments self'))
     /\ submissions self' = submissions self
     /\ submitters self' = submitters self)
  /\ (forall e, process_commenters self = Raise e -> is_Exception e = false).
Proof.
  split.
  - intros Hall Hc Hd. unfold process_commenters.
    rewrite (collect_comments_tolerant _ _ Hall), Hc. cbn [app bind].
    eexists. split; [reflexivity|].
    cbn [comments commenters submissions submitters set_commenters set_comments].
    split; [reflexivity|]. rewrite Hd.
    pose proof (group_all_grouped Comment.author
                  (flat_map fetched_comments (submissions self)) [] []
                  (conj (NoDup_nil _) (fun a => eq_refl))) as Hg.
    cbn [app] in Hg.
    split; [exact (proj1 Hg)|]. split; [exact (grouped_entries _ _ _ Hg)|].
    split; reflexivity.
  - intros e. unfold process_commenters.
    destruct (collect_comments (submissions self) (comments self)) as [cs|e']
      eqn:Hcoll; [discriminate|].
    intros [= <-]. now apply collect_comments_raises in Hcoll.
Qed.

(** The failed fetch leaves its orphan, the post without comments adds
    nothing, the third adds its tree and its orphan. *)
Lemma process_commenters_tolerant_witness :
  Forall fetch_tolerated (submissions commented_stats)
  /\ exists self',
       process_commenters commented_stats = Ok self'
       /\ comments self'
          = [sample_comment (Some "x") 1 0; sample_comment (Some "x") 2 0;
             sample_comment None 3 0].
Proof.
  assert (H : Forall fetch_tolerated (submissions commented_stats))
    by (repeat constructor).
  split; [exact H|].
  destruct (proj1 (process_commenters_tolerant commented_stats) H eq_refl eq_refl)
    as (self' & Hp & Hc & _).
  exists self'. split; [exact Hp|]. rewrite Hc. reflexivity.
Defined.

(** ** The real bounds after a fetch *)

Lemma sorted_ascending_flip {A K} (ltb : K -> K -> bool) (key : A -> K)
    (l : list A) :
  Py.sorted ltb key false l = Py.sorted (fun a b => ltb b a) key true l.
Proof.
  unfold Py.sorted. induction l as [|x l IH]; [reflexivity|].
  cbn [fold_right]. rewrite IH.
  generalize (fold_right (Py.insert (fun a b => ltb b a) key true) [] l).
  intros m. induction m as [|y m IHm]; [reflexivity|].
  cbn [Py.insert]. unfold Py.goes_after. now rewrite IHm.
Qed.

Lemma Qlt_bool_flip_asym (a b : Q) :
  Qlt_bool b a = true -> Qlt_bool a b = false.
Proof.
  intros H. apply Qlt_bool_true in H. unfold Qlt_bool.
  apply negb_false_iff, Qle_bool_iff. now apply Qlt_le_weak.
Qed.

Lemma Qlt_bool_flip_negtrans (a b c : Q) :
  Qlt_bool b a = false -> Qlt_bool c b = false -> Qlt_bool c a = false.
Proof.
  intros H1 H2. apply Qlt_bool_false in H1, H2. unfold Qlt_bool.
  apply negb_false_iff, Qle_bool_iff. eapply Qle_trans; eassumption.
Qed.

Lemma sorted_by_created (l : list Submission.t) :
  StronglySorted (fun x y => (created x <= created y)%Q)
    (Py.sorted Qlt_bool Submission.created_utc false l).
Proof.
  rewrite sorted_ascending_flip.
  eapply StronglySorted_impl;
    [|apply (sorted_desc (fun a b => Qlt_bool b a) Submission.created_utc
               Qlt_bool_flip_asym Qlt_bool_flip_negtrans)].
  intros x y H. unfold desc in H. now apply Qlt_bool_false in H.
Qed.

Lemma sorted_last_greatest {A} (R : A -> A -> Prop) (l : list A) (z : A) :
  (forall x, R x x) -> StronglySorted R l -> last_opt l = Some z ->
  forall x, In x l -> R x z.
Proof.
  intros Hrefl Hs. induction Hs as [|y l Hl IH Hy]; [discriminate|].
  intros Hlast x Hx. destruct l as [|y' l].
  - injection Hlast as <-. destruct Hx as [<-|[]]. apply Hrefl.
  - destruct Hx as [<-|Hx]; [|now apply IH].
    rewrite Forall_forall in Hy. apply Hy. now apply last_opt_in.
Qed.

(** What the common tail of both fetch methods leaves. *)
Lemma update_real_dates_spec (self : SubRedditStats) :
  let r := update_real_dates self in
  fst r = negb (Nat.eqb (List.length (submissions self)) 0)
  /\ Permutation (submissions (snd r)) (submissions self)
  /\ StronglySorted (fun x y => (created x <= created y)%Q) (submissions (snd r))
  /\ (fst r = false -> snd r = self)
  /\ (fst r = true ->
      (forall p, In p (submissions (snd r)) ->
                 (min_date (snd r) <= created p)%Q
                 /\ (created p <= max_date (snd r))%Q)
      /\ (exists p, In p (submissions self) /\ min_date (snd r) = created p)
      /\ (exists p, In p (submissions self) /\ max_date (snd r) = created p)).
Proof.
  cbv zeta. unfold update_real_dates.
  destruct (submissions self) as [|s l] eqn:Hsub.
  { cbn [fst snd]. rewrite Hsub. repeat split; try constructor; discriminate. }
  pose proof (sorted_by_created (s :: l)) as Hsorted.
  pose proof (sorted_perm Qlt_bool Submission.created_utc false (s :: l)) as Hperm.
  destruct (Py.sorted Qlt_bool Submission.created_utc false (s :: l))
    as [|first tl] eqn:Hs.
  { apply Permutation_nil in Hperm. discriminate. }
  destruct (last_opt (first :: tl)) as [final|] eqn:Hlast.
  2:{ apply last_opt_none in Hlast. discriminate. }
  cbn [fst snd submissions min_date max_date set_max_date set_min_date
         set_submissions List.length Nat.eqb negb].
  split; [reflexivity|]. split; [exact Hperm|]. split; [exact Hsorted|].
  split; [discriminate|]. intros _. split; [|split].
  - intros p Hp. split.
    + destruct Hp as [<-|Hp]; [apply Qle_refl|].
      inversion Hsorted as [|? ? _ Hall]; subst.
      rewrite Forall_forall in Hall. now apply Hall.
    + apply (sorted_last_greatest
               (fun x y : Submission.t => (created x <= created y)%Q) _ _
               (fun x => Qle_refl _) Hsorted Hlast p Hp).
  - exists first. split; [|reflexivity].
    apply (Permutation_in _ Hperm). now left.
  - exists final. split; [|reflexivity].
    apply (Permutation_in _ Hperm). now apply last_opt_in.
Qed.

(** X5. After either fetch method: the result is [False] exactly when no
    submission is held, and then the instance is as the scan left it.
    Otherwise the submissions are those held, sorted by creation time, and
    [min_date] and [max_date] are the creation times of the oldest and the
    newest of them, so every submission lies between the two, bounds
    included. *)
Theorem fetch_real_bounds (self self' : SubRedditStats) (found : bool) :
  (forall max_duration exclude_self since_last listing,
      fetch_recent_submissions self max_duration exclude_self since_last listing
      = Ok (found, self') ->
      found = negb (Nat.eqb (List.length (submissions self')) 0)
      /\ StronglySorted (fun x y => (created x <= created y)%Q)
           (submissions self')
      /\ (found = true ->
          (forall p, In p (submissions self') ->
                     (min_date self' <= created p)%Q
                     /\ (created p <= max_date self')%Q)
          /\ (exists p, In p (submissions self') /\ min_date self' = created p)
          /\ (exists p, In p (submissions self') /\ max_date self' = created p)))
  /\ (forall top exclude_self listing,
        fetch_top_submissions self top exclude_self listing = Ok (found, self') ->
        found = negb (Nat.eqb (List.length (submissions self')) 0)
        /\ StronglySorted (fun x y => (created x <= created y)%Q)
             (submissions self')
        /\ (found = true ->
            (forall p, In p (submissions self') ->
                       (min_date self' <= created p)%Q
                       /\ (created p <= max_date self')%Q)
            /\ (exists p, In p (submissions self') /\ min_date self' = created p)
            /\ (exists p, In p (submissions self') /\ max_date self' = created p))).
Proof.
  assert (Hgen : forall scanned,
             update_real_dates scanned = (found, self') ->
             found = negb (Nat.eqb (List.length (submissions self')) 0)
             /\ StronglySorted (fun x y => (created x <= created y)%Q)
                  (submissions self')
             /\ (found = true ->
                 (forall p, In p (submissions self') ->
                            (min_date self' <= created p)%Q
                            /\ (created p <= max_date self')%Q)
                 /\ (exists p, In p (submissions self')
                               /\ min_date self' = created p)
                 /\ (exists p, In p (submissions self')
                               /\ max_date self' = created p))).
  { intros scanned Hu.
    pose proof (update_real_dates_spec scanned) as H. cbv zeta in H.
    rewrite Hu in H. cbn [fst snd] in H.
    destruct H as (Hf & Hperm & Hs & _ & Ht).
    split; [now rewrite (Permutation_length Hperm)|]. split; [exact Hs|].
    intros Hfound. destruct (Ht Hfound) as (Hb & (p & Hp & Hmin) & (q & Hq & Hmax)).
    split; [exact Hb|]. split.
    - exists p. split; [|exact Hmin].
      apply (Permutation_in _ (Permutation_sym Hperm)), Hp.
    - exists q. split; [|exact Hmax].
      apply (Permutation_in _ (Permutation_sym Hperm)), Hq. }
  split.
  - intros max_duration exclude_self since_last listing.
    unfold fetch_recent_submissions.
    destruct (scan_new exclude_self since_last listing
                (apply_max_duration max_duration self)) as [r|e]; [|discriminate].
    cbn [bind]. intros [= H]. now apply (Hgen (fst (fst r))).
  - intros top exclude_self listing. unfold fetch_top_submissions.
    destruct (negb (valid_top top)); [discriminate|].
    intros [= H]. now apply (Hgen _ H).
Qed.

(** The scan of the example: found, with the bounds 20 and 30. *)
Lemma fetch_real_bounds_witness :
  fetch_recent_submissions window_stats 0 false true window_listing
  = Ok (true, window_result)
  /\ (forall p, In p (submissions window_result) ->
                (min_date window_result <= created p)%Q
                /\ (created p <= max_date window_result)%Q).
Proof.
  split; [reflexivity|].
  exact (proj1 (proj2 (proj2 (proj1 (fetch_real_bounds window_stats window_result true)
                                0 false true window_listing eq_refl)) eq_refl)).
Defined.

(** ** Top mode *)



(** ** What the window scan keeps and how it can fail *)

Lemma is_previous_report_user (sl : bool) (self self2 : SubRedditStats)
    (p : Submission.t) :
  user self2 = user self ->
  is_previous_report sl self2 p = is_previous_report sl self p.
Proof. unfold is_previous_report. now intros ->. Qed.

Lemma scan_new_kept (ex sl : bool) (listing : list Submission.t) :
  forall self self' stop rest,
    scan_new ex sl listing self = Ok (self', stop, rest) ->
    user self' = user self
    /\ (forall p, In p (submissions self') ->
                  In p (submissions self)
                  \/ (In p listing
                      /\ is_previous_report sl self p = false
                      /\ (ex && Submission.is_self p)%bool = false))
    /\ (prev_srs self' = prev_srs self
        \/ exists p, In p listing
                     /\ is_previous_report sl self p = true
                     /\ prev_srs self = None
                     /\ prev_srs self' = Some (Submission.permalink p)).
Proof.
  induction listing as [|s listing IH]; intros self self' stop rest;
    cbn [scan_new].
  - intros [= <- <- <-]. repeat split; auto.
  - assert (Hsame : forall self2,
               user self2 = user self ->
               submissions self2 = submissions self ->
               prev_srs self2 = prev_srs self ->
               scan_new ex sl listing self2 = Ok (self', stop, rest) ->
               user self' = user self
               /\ (forall p, In p (submissions self') ->
                             In p (submissions self)
                             \/ (In p (s :: listing)
                                 /\ is_previous_report sl self p = false
                                 /\ (ex && Submission.is_self p)%bool = false))
               /\ (prev_srs self' = prev_srs self
                   \/ exists p, In p (s :: listing)
                                /\ is_previous_report sl self p = true
                                /\ prev_srs self = None
                                /\ prev_srs self' = Some (Submission.permalink p))).
    { intros self2 Hu Hs Hp H. apply IH in H as (Hu' & Hk & Hprev).
      rewrite Hu in Hu'. split; [exact Hu'|]. split.
      - intros p Hin. destruct (Hk p Hin) as [H|(H1 & H2 & H3)].
        + left. now rewrite <- Hs.
        + right. rewrite (is_previous_report_user _ _ _ _ Hu) in H2.
          repeat split; auto. now right.
      - destruct Hprev as [H|(p & H1 & H2 & H3 & H4)].
        + left. congruence.
        + right. exists p. rewrite (is_previous_report_user _ _ _ _ Hu) in H2.
          repeat split; auto; [now right | congruence]. }
    destruct (Qlt_bool (max_date self) (created s)); [now apply Hsame|].
    destruct (Qle_bool (created s) (min_date self)).
    { intros [= <- <- <-]. repeat split; auto. }
    destruct (is_previous_report sl self s) eqn:Hrep.
    { destruct (prev_srs self) eqn:Hprev; [now apply Hsame|].
      destruct (_previous_max s) as [m|e]; [|discriminate]. cbn [bind].
      intros H. apply IH in H as (Hu & Hk & Hp).
      cbn [user submissions prev_srs set_prev_srs set_min_date] in *.
      split; [exact Hu|]. split.
      - intros p Hin. destruct (Hk p Hin) as [H|(H1 & H2 & H3)]; [now left|].
        right. repeat split; auto. now right.
      - right. destruct Hp as [Hp|(p & H1 & H2 & H3 & H4)]; [|discriminate].
        exists s. repeat split; auto. now left. }
    destruct (ex && Submission.is_self s)%bool eqn:Hself; [now apply Hsame|].
    intros H. apply IH in H as (Hu & Hk & Hp).
    cbn [user submissions prev_srs set_submissions] in *.
    split; [exact Hu|]. split.
    + intros p Hin. destruct (Hk p Hin) as [H|(H1 & H2 & H3)].
      * apply in_app_or in H as [H|[<-|[]]]; [now left|].
        right. repeat split; auto. now left.
      * right. repeat split; auto. now right.
    + destruct Hp as [Hp|(p & H1 & H2 & H3 & H4)]; [now left|].
      right. exists p. repeat split; auto. now right.
Qed.




(** ** Calls and sleeps of the retrying caller *)

Lemma sleep_events (t : Q) :
  filter is_call (sleep t) = [] /\ List.length (filter is_sleep (sleep t)) = 1%nat.
Proof. split; reflexivity. Qed.




(** ** The report is submitted or displayed *)





(** ** The statistics table when votes exist *)









(** ** What the assembly can raise *)






















(** ** How many entries a ranking has *)





(** ** The entry point *)
















(** ** An explicit previous report without a duration *)

(** X15. With [--prev] and [--days 0] the marker of the previous report is
    the low bound of the whole scan: every submission kept was created
    after the marker and not after the high bound, and the location given
    stays the back-link of the new report. *)
Theorem explicit_prev_without_duration
    (self self1 self' : SubRedditStats) (prev_url : string)
    (fetched : Submission.t) (marker : Q) (no_self found : bool)
    (listing : list Submission.t) :
  submissions self = [] ->
  _previous_max fetched = Ok marker ->
  prev_stat self prev_url fetched = Ok self1 ->
  fetch_recent_submissions self1 0 no_self true listing = Ok (found, self') ->
  (forall p, In p (submissions self') ->
             (marker < created p)%Q /\ (created p <= max_date self)%Q)
  /\ prev_srs self' = Some prev_url.
Proof.
  intros Hempty Hm Hprev Hfetch. unfold prev_stat in Hprev. rewrite Hm in Hprev.
  cbn [bind] in Hprev. injection Hprev as <-.
  unfold fetch_recent_submissions, apply_max_duration in Hfetch.
  cbn [Z.eqb] in Hfetch.
  destruct (scan_new no_self true listing
              (set_prev_srs (Some prev_url) (set_min_date marker self)))
    as [[[scanned stop] rest]|e] eqn:Hscan; [|discriminate].
  cbn [bind fst] in Hfetch. injection Hfetch as Hupd.
  pose proof (update_real_dates_submissions scanned) as Hin.
  rewrite Hupd in Hin. cbn [snd] in Hin.
  pose proof (scan_new_kept _ _ _ _ _ _ _ Hscan) as (_ & _ & Hp).
  apply scan_new_spec in Hscan as (_ & _ & before & kept & Hs & _ & Hk & _).
  cbn [submissions min_date max_date prev_srs set_prev_srs set_min_date] in *.
  rewrite Hempty in Hs. cbn [app] in Hs. split.
  - intros p Hp'. apply Hin in Hp'. rewrite Hs in Hp'.
    now destruct (Hk p Hp') as (_ & ? & ?).
  - assert (Hprev' : prev_srs self' = prev_srs scanned).
    { unfold update_real_dates in Hupd.
      destruct (submissions scanned) as [|s l]; [now injection Hupd as _ <-|].
      destruct (Py.sorted Qlt_bool Submission.created_utc false (s :: l))
        as [|first tl]; [now injection Hupd as _ <-|].
      destruct (last_opt (first :: tl)); now injection Hupd as _ <-. }
    rewrite Hprev'. destruct Hp as [Hp|(p & _ & _ & Hnone & _)];
      [exact Hp | discriminate Hnone].
Qed.

(** The report with the marker 22 given with [--prev]: of the posts at 30
    and 20 only the first is kept. *)
Lemma explicit_prev_without_duration_witness :
  _previous_max (report_at 25 (Some "SRS Marker: 22")) = Ok (inject_Z 22)
  /\ fetch_recent_submissions
       (set_prev_srs (Some "http://prev") (set_min_date (inject_Z 22) window_stats))
       0 false true [post_at 30; post_at 20]
     = Ok (true,
           set_max_date (inject_Z 30)
             (set_min_date (inject_Z 30)
                (set_submissions [post_at 30]
                   (set_prev_srs (Some "http://prev")
                      (set_min_date (inject_Z 22) window_stats)))))
  /\ (inject_Z 22 < created (post_at 30))%Q.
Proof.
  split; [reflexivity|]. split; [reflexivity|].
  refine (proj1 (proj1 (explicit_prev_without_duration window_stats _ _
                          "http://prev" (report_at 25 (Some "SRS Marker: 22"))
                          (inject_Z 22) false true [post_at 30; post_at 20]
                          eq_refl eq_refl eq_refl eq_refl) (post_at 30) _)).
  now left.
Defined.

(** ** What a run submits *)

Lemma publish_body_debug str_exn self subreddit title body line script ev :
  In ev (fst (publish_body str_exn self subreddit true title body line script)) ->
  is_call ev = false.
Proof.
  unfold publish_body. rewrite orb_true_r. cbn [negb fst].
  destruct (oversize body); cbn [app];
    intros H; repeat (destruct H as [<-|H]; [reflexivity|]); contradiction.
Qed.

(** X16. Whatever [main] submits goes to the subreddit named by
    [--submission-reddit], or to the processed one when that option is
    absent, and carries a body within [MAX_BODY_SIZE]; with [--debug]
    nothing is submitted at all. *)
Theorem main_calls
    (version : py_version) (timef : Q -> string) (str_exn : exn -> string)
    (fuel : nat) (options : Options.t) (subreddit : string) (w : world)
    (target subject text : string) :
  In (Call target subject text)
    (fst (main version timef str_exn fuel options subreddit w)) ->
  target = match Options.submission_reddit options with
           | Some r => if String.eqb r "" then subreddit else r
           | None => subreddit
           end
  /\ Z.of_nat (String.length text) <= MAX_BODY_SIZE
  /\ Options.debug options = false.
Proof.
  unfold main.
  destruct (match Options.prev options with Some _ => _ | None => _ end)
    as [srs|e]; [|intros []].
  destruct (match Options.top options with Some _ => _ | None => _ end)
    as [[found srs']|e]; [|intros []].
  destruct found; cbn [negb].
  2:{ cbn [fst]. intros [H|[]]. discriminate H. }
  destruct (if 0 <? Options.commenters options
            then process_commenters (process_submitters srs')
            else Ok (process_submitters srs')) as [srs''|e]; [|intros []].
  unfold publish_results.
  destruct (assemble_report version timef fuel srs'' (Options.submitters options)
              (Options.commenters options) 5 5 (Options.top options))
    as [[[parts st]|e]|]; try (intros []).
  set (sr := match Options.submission_reddit options with
             | Some r => if String.eqb r "" then subreddit else r
             | None => subreddit
             end).
  destruct (publish_body str_exn srs'' sr (Options.debug options) (title parts)
              (body st) (stdin_line w) (submit_script w))
    as [tr out] eqn:Hpub.
  cbn [fst]. intros Hin.
  assert (Hin' : In (Call target subject text)
                   (fst (publish_body str_exn srs'' sr (Options.debug options)
                           (title parts) (body st) (stdin_line w)
                           (submit_script w)))) by now rewrite Hpub.
  pose proof Hin' as Hcall.
  apply publish_body_calls in Hcall as [Heq Hov]; [|reflexivity].
  injection Heq as -> -> ->.
  split; [reflexivity|]. split.
  - unfold oversize in Hov. now apply Z.ltb_ge in Hov.
  - destruct (Options.debug options); [|reflexivity].
    apply publish_body_debug in Hin'. discriminate Hin'.
Qed.

(** The run over one post with comments: its one call goes to [test]. *)
Lemma main_calls_witness :
  exists subject text,
    In (Call "test" subject text)
      (fst (main Py3 sample_timef sample_str_exn 9 talkative_options "test"
              talkative_world))
    /\ Z.of_nat (String.length text) <= MAX_BODY_SIZE
    /\ Options.debug talkative_options = false.
Proof.
  assert (H : { p : string * string
              | In (Call "test" (fst p) (snd p))
                  (fst (main Py3 sample_timef sample_str_exn 9
                          talkative_options "test" talkative_world)) }).
  { eexists (_, _). cbn [fst snd].
    set (tr := fst (main Py3 sample_timef sample_str_exn 9 talkative_options
                      "test" talkative_world)).
    vm_compute in tr. subst tr. right. right. left. reflexivity. }
  destruct H as [[subject text] H]. cbn [fst snd] in H.
  exists subject, text. split; [exact H|].
  exact (proj2 (main_calls Py3 sample_timef sample_str_exn 9 talkative_options
                  "test" talkative_world "test" subject text H)).
Defined.
